(** * Session lifecycle of the Pofara web client

    A model of the client-side session code:
    - the axios instance [api] with its request and response interceptors
      (services/api.ts),
    - the [AuthProvider] operations [initAuth], [login], [register],
      [refreshUser] and [logout] (contexts/AuthContext.tsx),
    - [handleSubmit] of the registration page (pages/auth/RegisterPage.tsx).

    JavaScript runs one turn at a time: an async function runs until it
    awaits a network reply, and is resumed by the turn in which that reply
    arrives.  The model follows this: a [Browser] value is the state of the
    page between two turns, every request put on the wire is appended to
    [wire], and whoever awaits the reply to request number [n] is stored in
    [pending] under [n].  [deliver n r] is the turn that handles reply [r]
    to request [n].  axios runs the request interceptor in a microtask of
    the turn that calls [api], before any other reply is handled, so the
    model runs it at the call.  The model describes the page until it is
    unloaded; an assignment to [window.location.href] is recorded in
    [href].

    Strings are JavaScript strings read one code unit per character; the
    code only compares them, concatenates them and takes their length. *)

From stdpp Require Import gmap strings list fin_maps.
From Stdlib Require Import ZArith.

Local Open Scope string_scope.
Local Open Scope Z_scope.

(** ** Data *)

Inductive Role := RoleUser | RoleInspector | RoleAdmin.

(** interface User (AuthContext.tsx) *)
Record User := mkUser {
  id : Z;
  email : string;
  first_name : string;
  last_name : string;
  phone_number : option string;
  role : Role;
  status : string;
  email_verified : bool;
  phone_verified : bool;
  is_verified : bool;
}.

(** A field of an error body: one message or an array of messages. *)
Inductive FieldError :=
  | One (msg : string)
  | Many (msgs : list string).

(** [response.data], by the shapes the endpoints answer with.  A property
    that a shape does not have reads as [undefined], here [None]. *)
Inductive Data :=
  | TokenData (access refresh : option string) (user : option User)
  | ProfileData (u : User)
  | ErrorData (email password non_field_errors : option FieldError)
              (detail : option string)
  | OtherData (raw : string)
  | EmptyData.

Definition data_access (d : Data) : option string :=
  match d with TokenData a _ _ => a | _ => None end.
Definition data_refresh (d : Data) : option string :=
  match d with TokenData _ r _ => r | _ => None end.
Definition data_user (d : Data) : option Data :=
  match d with TokenData _ _ (Some u) => Some (ProfileData u) | _ => None end.
Definition data_email (d : Data) : option FieldError :=
  match d with ErrorData e _ _ _ => e | _ => None end.
Definition data_password (d : Data) : option FieldError :=
  match d with ErrorData _ p _ _ => p | _ => None end.
Definition data_non_field_errors (d : Data) : option FieldError :=
  match d with ErrorData _ _ n _ => n | _ => None end.
Definition data_detail (d : Data) : option string :=
  match d with ErrorData _ _ _ t => t | _ => None end.

(** JavaScript truthiness of a string that may be null or undefined. *)
Definition truthy (s : option string) : bool :=
  match s with
  | Some (String _ _) => true
  | _ => false
  end.

(** An object is truthy; the empty body (the empty string) is not. *)
Definition truthy_data (d : option Data) : bool :=
  match d with
  | Some EmptyData | None => false
  | Some _ => true
  end.

Definition truthy_field (f : option FieldError) : bool :=
  match f with
  | Some (One (String _ _)) | Some (Many _) => true
  | _ => false
  end.

(** [x || y] on strings that may be undefined *)
Definition js_or (x y : option string) : option string :=
  if truthy x then x else y.

(** [f?.[0]]: first element of an array, first code unit of a string *)
Definition index0 (f : option FieldError) : option string :=
  match f with
  | Some (Many (m :: _)) => Some m
  | Some (One (String c _)) => Some (String c EmptyString)
  | _ => None
  end.

(** [Array.isArray(f) ? f[0] : f] *)
Definition first_message (f : option FieldError) : option string :=
  match f with
  | Some (Many msgs) => head msgs
  | Some (One m) => Some m
  | None => None
  end.

(** String conversion of a string that may be undefined, as done by
    [localStorage.setItem] and by a template literal. *)
Definition js_string (s : option string) : string :=
  match s with Some s => s | None => "undefined" end.

Inductive Method := GET | POST | PATCH | DELETE.

Inductive Body :=
  | NoBody
  | LoginBody (email password : string)
  | RegisterBody (email password first_name last_name : string)
                 (phone_number : option string) (password_confirm : string)
  | RefreshBody (refresh : string)
  | RawBody (raw : string).

(** The axios request config, with the properties this code reads or
    writes: [headers.Authorization] and the [_retry] marker. *)
Record Config := mkConfig {
  method : Method;
  url : string;
  data : Body;
  Authorization : option string;
  _retry : bool;
}.

Definition set_Authorization (h : string) (c : Config) : Config :=
  mkConfig (method c) (url c) (data c) (Some h) (_retry c).
Definition set_retry (c : Config) : Config :=
  mkConfig (method c) (url c) (data c) (Authorization c) true.

(** Which axios instance sent a request: [api], which has the
    interceptors, or the global [axios], which has none. *)
Inductive Client := ApiInstance | BareAxios.

Record Request := mkRequest { client : Client; config : Config }.

(** What comes back for a request: an HTTP reply or nothing (transport
    failure, time-out). *)
Inductive Reply :=
  | Replied (status : Z) (body : Data)
  | NoReply.

Inductive JsError :=
  | AxiosError (response : option (Z * Data))
  | PlainError (message : string).

(** axios fulfils the promise on a 2xx status and rejects it otherwise. *)
Definition axios_settle (r : Reply) : Data + JsError :=
  match r with
  | Replied s d =>
      if (200 <=? s) && (s <? 300) then inl d
      else inr (AxiosError (Some (s, d)))
  | NoReply => inr (AxiosError None)
  end.

(** [error.response?.status] and [error.response?.data] *)
Definition error_status (e : JsError) : option Z :=
  match e with AxiosError (Some (s, _)) => Some s | _ => None end.
Definition error_data (e : JsError) : option Data :=
  match e with AxiosError (Some (_, d)) => Some d | _ => None end.

(** What a promise handed to a caller settles to. *)
Inductive Settled :=
  | Resolved (d : Data)
  | Rejected (e : JsError)
  | AuthResult (success : bool) (error : option string)
  | Void.

(** Who awaits an [api] call. *)
Inductive Caller :=
  | ResourceCaller
  | LoginCaller
  | RegisterCaller (from_handleSubmit : bool)
  | RefreshUserCaller (from_initAuth : bool)
  | LogoutCaller.

Inductive Stage := AwaitingReply | AwaitingRefresh.

(** A suspended call: [originalRequest] is the config the request was
    sent with ([error.config]), [origin] the number of the first request
    of the call, which names the promise its caller holds. *)
Record Pending := mkPending {
  originalRequest : Config;
  stage : Stage;
  caller : Caller;
  origin : nat;
}.

(** State of RegisterPage *)
Record FormData := mkFormData {
  form_email : string;
  form_password : string;
  form_confirmPassword : string;
  form_first_name : string;
  form_last_name : string;
  form_phone_number : string;
}.

Record RegisterPage := mkRegisterPage {
  formData : FormData;
  error : string;
  page_isLoading : bool;
  navigated : option string;
}.

Record Browser := mkBrowser {
  localStorage : gmap string string;
  user : option Data;
  isLoading : bool;
  href : string;
  console : list (string * JsError);
  wire : list Request;
  pending : gmap nat Pending;
  settled : gmap nat Settled;
  page : RegisterPage;
}.

Definition isAuthenticated (w : Browser) : bool := truthy_data (user w).

(** ** Assignments to the cells of the state *)

Definition with_localStorage (f : gmap string string → gmap string string)
    (w : Browser) : Browser :=
  mkBrowser (f (localStorage w)) (user w) (isLoading w) (href w) (console w)
            (wire w) (pending w) (settled w) (page w).
Definition setUser (u : option Data) (w : Browser) : Browser :=
  mkBrowser (localStorage w) u (isLoading w) (href w) (console w)
            (wire w) (pending w) (settled w) (page w).
Definition setIsLoading (b : bool) (w : Browser) : Browser :=
  mkBrowser (localStorage w) (user w) b (href w) (console w)
            (wire w) (pending w) (settled w) (page w).
Definition set_href (h : string) (w : Browser) : Browser :=
  mkBrowser (localStorage w) (user w) (isLoading w) h (console w)
            (wire w) (pending w) (settled w) (page w).
Definition console_error (label : string) (e : JsError) (w : Browser) : Browser :=
  mkBrowser (localStorage w) (user w) (isLoading w) (href w)
            (console w ++ [(label, e)])
            (wire w) (pending w) (settled w) (page w).
Definition send (r : Request) (p : Pending) (w : Browser) : Browser :=
  mkBrowser (localStorage w) (user w) (isLoading w) (href w) (console w)
            (wire w ++ [r]) (<[length (wire w) := p]> (pending w))
            (settled w) (page w).
Definition resume (n : nat) (w : Browser) : Browser :=
  mkBrowser (localStorage w) (user w) (isLoading w) (href w) (console w)
            (wire w) (delete n (pending w)) (settled w) (page w).
Definition settle (n : nat) (s : Settled) (w : Browser) : Browser :=
  mkBrowser (localStorage w) (user w) (isLoading w) (href w) (console w)
            (wire w) (pending w) (<[n := s]> (settled w)) (page w).
Definition with_page (f : RegisterPage → RegisterPage) (w : Browser) : Browser :=
  mkBrowser (localStorage w) (user w) (isLoading w) (href w) (console w)
            (wire w) (pending w) (settled w) (f (page w)).

Definition getItem (k : string) (w : Browser) : option string :=
  localStorage w !! k.
Definition setItem (k v : string) : Browser → Browser :=
  with_localStorage (insert k v).
Definition removeItem (k : string) : Browser → Browser :=
  with_localStorage (delete k).

Definition page_setError (m : string) : Browser → Browser :=
  with_page (λ p, mkRegisterPage (formData p) m (page_isLoading p) (navigated p)).
Definition page_setIsLoading (b : bool) : Browser → Browser :=
  with_page (λ p, mkRegisterPage (formData p) (error p) b (navigated p)).
Definition navigate (to : string) : Browser → Browser :=
  with_page (λ p, mkRegisterPage (formData p) (error p) (page_isLoading p) (Some to)).

(** ** services/api.ts (src/unnamed/part_004) *)

Definition get (url : string) : Config := mkConfig GET url NoBody None false.
Definition post (url : string) (data : Body) : Config :=
  mkConfig POST url data None false.

(** Request interceptor of [api] (lines 13-24): adds the stored access
    token when there is one. *)
Definition request_interceptor (config : Config) (w : Browser) : Config :=
  let token := getItem "access_token" w in
  if truthy token
  then set_Authorization ("Bearer " ++ js_string token) config
  else config.

(** [api(config)]: the request interceptor runs, the request goes on the
    wire, and caller [k] is suspended on its reply.  [o] is [None] for a
    new call and the origin of the call for a resend. *)
Definition api (config : Config) (k : Caller) (o : option nat) (w : Browser)
    : Browser :=
  let config := request_interceptor config w in
  send (mkRequest ApiInstance config)
       (mkPending config AwaitingReply k (default (length (wire w)) o)) w.

Definition authAPI_login (credentials : Body) : Browser → Browser :=
  api (post "auth/token/" credentials) LoginCaller None.
Definition authAPI_register (userData : Body) (from_handleSubmit : bool)
    : Browser → Browser :=
  api (post "auth/user/register/" userData) (RegisterCaller from_handleSubmit) None.
Definition authAPI_logout : Browser → Browser :=
  api (post "auth/logout/" NoBody) LogoutCaller None.
Definition authAPI_getProfile (from_initAuth : bool) : Browser → Browser :=
  api (get "auth/user/profile/") (RefreshUserCaller from_initAuth) None.

(** ** contexts/AuthContext.tsx (in src/frontend/src/components/layout/Layout.tsx,
    lines 400-578) *)

(** [logout] (lines 541-552) *)
Definition logout (w : Browser) : Browser :=
  let w := removeItem "access_token" w in
  let w := removeItem "refresh_token" w in
  let w := setUser None w in
  let w := authAPI_logout w in
  set_href "/" w.

(** [login] (lines 456-480), up to its await *)
Definition login (email password : string) (w : Browser) : Browser :=
  let w := setIsLoading true w in
  authAPI_login (LoginBody email password) w.

(** [login], resumed with the response *)
Definition login_fulfilled (response : Data) (o : nat) (w : Browser) : Browser :=
  let w := setItem "access_token" (js_string (data_access response)) w in
  let w := setItem "refresh_token" (js_string (data_refresh response)) w in
  let w := setUser (data_user response) w in
  let w := setIsLoading false w in
  settle o (AuthResult true None) w.

(** [login], resumed in its catch clause *)
Definition login_rejected (error : JsError) (o : nat) (w : Browser) : Browser :=
  let w := console_error "Login error:" error w in
  let errorMessage :=
    js_or (js_or (index0 (error_data error ≫= data_non_field_errors))
                 (error_data error ≫= data_detail))
          (Some "Login failed. Please check your credentials.") in
  let w := setIsLoading false w in
  settle o (AuthResult false errorMessage) w.

(** [register] (lines 482-528), up to its await *)
Definition register (email password first_name last_name : string)
    (phone_number : option string) (from_handleSubmit : bool) (w : Browser)
    : Browser :=
  let w := setIsLoading true w in
  let registrationData :=
    RegisterBody email password first_name last_name phone_number password in
  authAPI_register registrationData from_handleSubmit w.

Definition register_errorMessage (error : JsError) : option string :=
  if truthy_data (error_data error) then
    let errorData := error_data error in
    if truthy_field (errorData ≫= data_email)
    then first_message (errorData ≫= data_email)
    else if truthy_field (errorData ≫= data_password)
    then first_message (errorData ≫= data_password)
    else if truthy_field (errorData ≫= data_non_field_errors)
    then first_message (errorData ≫= data_non_field_errors)
    else if truthy (errorData ≫= data_detail)
    then errorData ≫= data_detail
    else Some "Registration failed. Please try again."
  else Some "Registration failed. Please try again.".

(** [handleSubmit] of RegisterPage, resumed with the result of [register] *)
Definition handleSubmit_resume (success : bool) (error : option string)
    (w : Browser) : Browser :=
  let w :=
    if success then navigate "/dashboard" w
    else page_setError (js_string (js_or error (Some "Registration failed"))) w in
  page_setIsLoading false w.

Definition register_return (from_handleSubmit : bool) (o : nat)
    (success : bool) (error : option string) (w : Browser) : Browser :=
  let w := settle o (AuthResult success error) w in
  if from_handleSubmit then handleSubmit_resume success error w else w.

Definition register_fulfilled (response : Data) (from_handleSubmit : bool)
    (o : nat) (w : Browser) : Browser :=
  let w := setItem "access_token" (js_string (data_access response)) w in
  let w := setItem "refresh_token" (js_string (data_refresh response)) w in
  let w := setUser (data_user response) w in
  let w := setIsLoading false w in
  register_return from_handleSubmit o true None w.

Definition register_rejected (error : JsError) (from_handleSubmit : bool)
    (o : nat) (w : Browser) : Browser :=
  let w := console_error "Registration error:" error w in
  let errorMessage := register_errorMessage error in
  let w := setIsLoading false w in
  register_return from_handleSubmit o false errorMessage w.

(** [refreshUser] (lines 530-539), up to its await; [from_initAuth]
    tells whether [initAuth] awaits it. *)
Definition refreshUser (from_initAuth : bool) : Browser → Browser :=
  authAPI_getProfile from_initAuth.

Definition refreshUser_fulfilled (response : Data) (from_initAuth : bool)
    (o : nat) (w : Browser) : Browser :=
  let w := setUser (Some response) w in
  if from_initAuth then setIsLoading false w else settle o Void w.

(** The catch clause of [refreshUser] logs out and throws the error
    again; the catch clause of [initAuth] logs it and logs out once more. *)
Definition refreshUser_rejected (error : JsError) (from_initAuth : bool)
    (o : nat) (w : Browser) : Browser :=
  let w := console_error "Failed to refresh user:" error w in
  let w := logout w in
  if from_initAuth then
    let w := console_error "Failed to refresh user:" error w in
    let w := logout w in
    setIsLoading false w
  else settle o (Rejected error) w.

(** [initAuth] (lines 439-454), up to its await *)
Definition initAuth (w : Browser) : Browser :=
  let token := getItem "access_token" w in
  if truthy token then refreshUser true w else setIsLoading false w.

(** The promise of an [api] call settles with [r]: its caller runs on. *)
Definition continue (k : Caller) (o : nat) (r : Data + JsError) (w : Browser)
    : Browser :=
  match k, r with
  | ResourceCaller, inl response => settle o (Resolved response) w
  | ResourceCaller, inr error => settle o (Rejected error) w
  | LoginCaller, inl response => login_fulfilled response o w
  | LoginCaller, inr error => login_rejected error o w
  | RegisterCaller h, inl response => register_fulfilled response h o w
  | RegisterCaller h, inr error => register_rejected error h o w
  | RefreshUserCaller i, inl response => refreshUser_fulfilled response i o w
  | RefreshUserCaller i, inr error => refreshUser_rejected error i o w
  | LogoutCaller, inl _ => w
  | LogoutCaller, inr error => console_error "" error w
  end.

(** ** The response interceptor of [api] (part_004, lines 27-62)

    A fulfilled response is passed on as it is.  The handler for a
    rejected one is an async function with one await, on the refresh
    call; [response_rejected] is the handler up to that await, and
    [refresh_fulfilled] and [refresh_failed] are the two ways it runs on.
    The resend [api(originalRequest)] is returned without being awaited,
    so its outcome settles the promise of the caller and is not seen by
    the catch clause. *)

Definition refresh_url : string :=
  "http://127.0.0.1:8000/api/v1/auth/token/refresh/".

(** The catch clause of the handler (lines 51-57) *)
Definition refresh_failed (refreshError : JsError) (p : Pending) (w : Browser)
    : Browser :=
  let w := removeItem "access_token" w in
  let w := removeItem "refresh_token" w in
  let w := set_href "/login" w in
  continue (caller p) (origin p) (inr refreshError) w.

(** The handler for a rejected request, up to its await (lines 29-43) *)
Definition response_rejected (error : JsError) (p : Pending) (w : Browser)
    : Browser :=
  let originalRequest := originalRequest p in
  if bool_decide (error_status error = Some 401) && negb (_retry originalRequest)
  then
    let originalRequest := set_retry originalRequest in
    let refreshToken := getItem "refresh_token" w in
    if negb (truthy refreshToken)
    then refresh_failed (PlainError "No refresh token") p w
    else
      send (mkRequest BareAxios
              (post refresh_url (RefreshBody (js_string refreshToken))))
           (mkPending originalRequest AwaitingRefresh (caller p) (origin p)) w
  else continue (caller p) (origin p) (inr error) w.

(** The handler resumed with the response of the refresh call
    (lines 45-50) *)
Definition refresh_fulfilled (response : Data) (p : Pending) (w : Browser)
    : Browser :=
  let access := data_access response in
  let w := setItem "access_token" (js_string access) w in
  let originalRequest :=
    set_Authorization ("Bearer " ++ js_string access) (originalRequest p) in
  api originalRequest (caller p) (Some (origin p)) w.

(** ** The turn that handles reply [r] to request [n] *)

Definition deliver (n : nat) (r : Reply) (w : Browser) : Browser :=
  match pending w !! n with
  | None => w
  | Some p =>
      let w := resume n w in
      match stage p, axios_settle r with
      | AwaitingReply, inl response =>
          continue (caller p) (origin p) (inl response) w
      | AwaitingReply, inr error => response_rejected error p w
      | AwaitingRefresh, inl response => refresh_fulfilled response p w
      | AwaitingRefresh, inr refreshError => refresh_failed refreshError p w
      end
  end.

Definition run (events : list (nat * Reply)) (w : Browser) : Browser :=
  foldl (λ w ev, deliver ev.1 ev.2 w) w events.

(** ** pages/auth/RegisterPage.tsx

    [handleSubmit] (lines 40-70), up to its await *)

Definition handleSubmit (w : Browser) : Browser :=
  let w := page_setIsLoading true w in
  let w := page_setError "" w in
  let formData := formData (page w) in
  if negb (String.eqb (form_password formData) (form_confirmPassword formData))
  then
    let w := page_setError "Passwords do not match" w in
    page_setIsLoading false w
  else if (String.length (form_password formData) <? 8)%nat
  then
    let w := page_setError "Password must be at least 8 characters long" w in
    page_setIsLoading false w
  else
    register (form_email formData) (form_password formData)
             (form_first_name formData) (form_last_name formData)
             (Some (form_phone_number formData)) true w.

(** A page that has just been loaded, and the start of its AuthProvider. *)
Definition blank_page : RegisterPage :=
  mkRegisterPage (mkFormData "" "" "" "" "" "") "" false None.

Definition fresh (storage : gmap string string) (location : string) : Browser :=
  mkBrowser storage None true location [] [] ∅ ∅ blank_page.

Definition bootstrap (storage : gmap string string) (location : string)
    : Browser :=
  initAuth (fresh storage location).

(** ** Counting what went on the wire *)

Global Instance Client_eq_dec : EqDecision Client.
Proof. solve_decision. Defined.

Definition is_refresh_call (r : Request) : bool :=
  bool_decide (client r = BareAxios).
Definition is_api_call (r : Request) : bool :=
  bool_decide (client r = ApiInstance).

Fixpoint count {A} (f : A → bool) (l : list A) : nat :=
  match l with
  | [] => 0%nat
  | x :: l => ((if f x then 1 else 0) + count f l)%nat
  end.

Definition refresh_calls : list Request → nat := count is_refresh_call.
Definition api_calls : list Request → nat := count is_api_call.

(** The request that the 401 handler sends to refresh the token. *)
Definition refresh_request (refreshToken : string) : Request :=
  mkRequest BareAxios (post refresh_url (RefreshBody refreshToken)).

(** The config of the resend: the original one with the new token and
    the marker. *)
Definition resend_config (cfg : Config) (access : option string) : Config :=
  mkConfig (method cfg) (url cfg) (data cfg)
           (Some ("Bearer " ++ js_string access)) true.

(** What the caller of a plain [api] call receives for a reply. *)
Definition outcome (r : Reply) : Settled :=
  match axios_settle r with
  | inl response => Resolved response
  | inr error => Rejected error
  end.

Definition no_tokens (w : Browser) : Prop :=
  getItem "access_token" w = None ∧ getItem "refresh_token" w = None.

(** The life of one resource call: what is on the wire after [base]
    and who is suspended. *)
Inductive cycle (base : list Request) (w : Browser) : Prop :=
  | cycle_sent (l : list Request) k c o :
      wire w = (base ++ l)%list →
      pending w = {[k := mkPending c AwaitingReply ResourceCaller o]} →
      _retry c = false → refresh_calls l = 0%nat → api_calls l = 1%nat →
      cycle base w
  | cycle_refreshing (l : list Request) k c o :
      wire w = (base ++ l)%list →
      pending w = {[k := mkPending c AwaitingRefresh ResourceCaller o]} →
      _retry c = true → refresh_calls l = 1%nat → api_calls l = 1%nat →
      cycle base w
  | cycle_resent (l : list Request) k c o :
      wire w = (base ++ l)%list →
      pending w = {[k := mkPending c AwaitingReply ResourceCaller o]} →
      _retry c = true → refresh_calls l = 1%nat → api_calls l = 2%nat →
      cycle base w
  | cycle_over (l : list Request) :
      wire w = (base ++ l)%list → pending w = ∅ →
      (refresh_calls l ≤ 1)%nat → (api_calls l ≤ 2)%nat →
      cycle base w.


(** [N] resource calls started in the same turn, one per config. *)
Definition start_all (cfgs : list Config) (w : Browser) : Browser :=
  foldl (λ w cfg, api cfg ResourceCaller None w) w cfgs.

(** A 401 for each of the requests [ks], in that order; [body k] is the
    body of the reply to request [k]. *)
Definition all_401 (body : nat → Data) (ks : list nat) : list (nat * Reply) :=
  map (λ k, (k, Replied 401 (body k))) ks.

(** A state is cleared when no token is stored and no user is held. *)
Definition cleared (w : Browser) : Prop := no_tokens w ∧ user w = None.

(** ** Sample states *)

Definition amina : User :=
  mkUser 7 "amina@example.com" "Amina" "Diallo" None RoleUser "active"
         true false false.

Definition stored_tokens : gmap string string :=
  <["access_token" := "A1"]> (<["refresh_token" := "R1"]> ∅).

(** A signed-in page, nothing in flight. *)
Definition signed_in : Browser :=
  mkBrowser stored_tokens (Some (ProfileData amina)) false "/projects"
            [] [] ∅ ∅ blank_page.

(** A page with no session. *)
Definition signed_out : Browser :=
  mkBrowser ∅ None false "/login" [] [] ∅ ∅ blank_page.

Definition two_calls : list Config := [get "projects/"; get "inspectors/"].

Definition expired : Data :=
  ErrorData None None None (Some "Token is invalid or expired").

(** The registration page with a seven character password typed twice. *)
Definition short_password_page : Browser :=
  with_page (λ _, mkRegisterPage
               (mkFormData "amina@example.com" "secret1" "secret1"
                           "Amina" "Diallo" "+221700000000")
               "" false None)
            signed_out.

(** The end of a session: cleared, and no longer loading. *)
Definition anonymous (w : Browser) : Prop := cleared w ∧ isLoading w = false.

(** ** pages/auth/RegisterPage.tsx, the form *)

(** [{...prev, [name]: value}] on the six fields of the form.  An input
    of another name would add a property that nothing reads. *)
Definition set_field (name value : string) (f : FormData) : FormData :=
  if String.eqb name "email" then
    mkFormData value (form_password f) (form_confirmPassword f)
               (form_first_name f) (form_last_name f) (form_phone_number f)
  else if String.eqb name "password" then
    mkFormData (form_email f) value (form_confirmPassword f)
               (form_first_name f) (form_last_name f) (form_phone_number f)
  else if String.eqb name "confirmPassword" then
    mkFormData (form_email f) (form_password f) value
               (form_first_name f) (form_last_name f) (form_phone_number f)
  else if String.eqb name "first_name" then
    mkFormData (form_email f) (form_password f) (form_confirmPassword f)
               value (form_last_name f) (form_phone_number f)
  else if String.eqb name "last_name" then
    mkFormData (form_email f) (form_password f) (form_confirmPassword f)
               (form_first_name f) value (form_phone_number f)
  else if String.eqb name "phone_number" then
    mkFormData (form_email f) (form_password f) (form_confirmPassword f)
               (form_first_name f) (form_last_name f) value
  else f.

(** [handleChange] (lines 30-38), with the name and the value of
    [e.target] *)
Definition handleChange (name value : string) (w : Browser) : Browser :=
  let shown := error (page w) in
  let w :=
    with_page (λ prev, mkRegisterPage (set_field name value (formData prev))
                         (error prev) (page_isLoading prev) (navigated prev))
              w in
  if truthy (Some shown) then page_setError "" w else w.

(** [isFormValid] (lines 72-78), as the boolean that the button reads *)
Definition isFormValid (f : FormData) : bool :=
  truthy (Some (form_email f)) &&
  truthy (Some (form_password f)) &&
  truthy (Some (form_confirmPassword f)) &&
  truthy (Some (form_first_name f)) &&
  truthy (Some (form_last_name f)) &&
  truthy (Some (form_phone_number f)) &&
  String.eqb (form_password f) (form_confirmPassword f).

(** The submit button is disabled when [!isFormValid || isLoading]
    (line 274); a disabled button submits nothing. *)
Definition submit (w : Browser) : Browser :=
  if negb (isFormValid (formData (page w))) || page_isLoading (page w)
  then w
  else handleSubmit w.

(** ** pages/OnboardingPage.tsx

    The wizard: its state cells [currentStep], [selectedServices],
    [selectedCountries] and [timeline], the handlers that write them, and
    the fields of [projectData] that are computed from them.  Of the
    tables, the properties that only styling reads (icon, colour, flag)
    are left out. *)

Record Service := mkService {
  service_id : string;
  service_name : string;
  service_description : string;
}.

(** [services] (lines 35-108) *)
Definition services : list Service := [
  mkService "property_management" "Property Inspection"
            "Comprehensive property evaluation and assessment";
  mkService "construction" "Construction Monitoring"
            "Track construction progress and quality control";
  mkService "renovation" "Renovation Oversight"
            "Monitor renovation projects and improvements";
  mkService "business_setup" "Business Setup"
            "Business establishment and compliance assistance";
  mkService "agriculture" "Agricultural Projects"
            "Farm and agriculture project monitoring";
  mkService "investment" "Investment Due Diligence"
            "Investment verification and risk analysis";
  mkService "government_paperwork" "Government Paperwork"
            "Assistance with legal and regulatory compliance";
  mkService "donation" "Donation Projects"
            "Charitable donations and community projects";
  mkService "other" "Others"
            "Custom projects and specialized services"
].

(** [countries] (lines 110-123): name and [popular] *)
Definition countries : list (string * bool) := [
  ("Nigeria", true); ("Ghana", true); ("Kenya", true);
  ("South Africa", true); ("Ethiopia", false); ("Tanzania", false);
  ("Uganda", false); ("Rwanda", false); ("Senegal", false);
  ("Cameroon", false); ("Ivory Coast", false); ("Zambia", false)
].

(** [timelineOptions] (lines 125-130): the values *)
Definition timelineOptions : list string := ["1"; "3"; "6"; "12"].

Record Wizard := mkWizard {
  currentStep : Z;
  selectedServices : list string;
  selectedCountries : list string;
  timeline : string;
}.

(** The state of a wizard that has just been mounted (lines 27-33) *)
Definition new_wizard : Wizard := mkWizard 1 [] [] "".

(** The updater of [toggleService] and [toggleCountry]:
    [prev.includes(x) ? prev.filter(y => y !== x) : [...prev, x]] *)
Definition toggled (x : string) (prev : list string) : list string :=
  if bool_decide (x ∈ prev)
  then filter (λ y, y ≠ x) prev
  else (prev ++ [x])%list.

(** [toggleService] (lines 132-138) *)
Definition toggleService (serviceId : string) (z : Wizard) : Wizard :=
  mkWizard (currentStep z) (toggled serviceId (selectedServices z))
           (selectedCountries z) (timeline z).

(** [toggleCountry] (lines 140-146) *)
Definition toggleCountry (country : string) (z : Wizard) : Wizard :=
  mkWizard (currentStep z) (selectedServices z)
           (toggled country (selectedCountries z)) (timeline z).

Definition setTimeline (value : string) (z : Wizard) : Wizard :=
  mkWizard (currentStep z) (selectedServices z) (selectedCountries z) value.

(** [handleNext] (lines 148-152) *)
Definition handleNext (z : Wizard) : Wizard :=
  if currentStep z <? 3
  then mkWizard (currentStep z + 1) (selectedServices z)
                (selectedCountries z) (timeline z)
  else z.

(** [handleBack] (lines 154-158) *)
Definition handleBack (z : Wizard) : Wizard :=
  if 1 <? currentStep z
  then mkWizard (currentStep z - 1) (selectedServices z)
                (selectedCountries z) (timeline z)
  else z.

(** [canProceed] (lines 238-245) *)
Definition canProceed (z : Wizard) : bool :=
  if currentStep z =? 1 then (0 <? length (selectedServices z))%nat
  else if currentStep z =? 2 then (0 <? length (selectedCountries z))%nat
  else if currentStep z =? 3 then negb (String.eqb (timeline z) "")
  else false.

(** What the page offers to click: the tiles of the current step
    ([renderStepContent], lines 265-431), numbered by their place in the
    table, and the buttons Back and Continue (lines 530-555). *)
Inductive Click :=
  | ServiceTile (i : nat)
  | CountryTile (i : nat)
  | TimelineTile (i : nat)
  | BackButton
  | ContinueButton.

(** One click.  A tile is there only on its step; Back is disabled on
    step 1; Continue is there while [currentStep < 3] and is disabled
    when [!canProceed()]. *)
Definition click (c : Click) (z : Wizard) : Wizard :=
  match c with
  | ServiceTile i =>
      if currentStep z =? 1 then
        match services !! i with
        | Some service => toggleService (service_id service) z
        | None => z
        end
      else z
  | CountryTile i =>
      if currentStep z =? 2 then
        match countries !! i with
        | Some country => toggleCountry country.1 z
        | None => z
        end
      else z
  | TimelineTile i =>
      if currentStep z =? 3 then
        match timelineOptions !! i with
        | Some value => setTimeline value z
        | None => z
        end
      else z
  | BackButton => if currentStep z =? 1 then z else handleBack z
  | ContinueButton =>
      if (currentStep z <? 3) && canProceed z then handleNext z else z
  end.

Definition clicks (cs : list Click) (z : Wizard) : Wizard :=
  foldl (λ z c, click c z) z cs.

(** The button Create Project is there on the last step and is enabled
    when [canProceed()] (lines 556-559; [loading] aside). *)
Definition create_enabled (z : Wizard) : bool :=
  negb (currentStep z <? 3) && canProceed z.

(** What every state of the wizard satisfies, whatever was clicked. *)
Definition wizard_ok (z : Wizard) : Prop :=
  (currentStep z = 1 ∨ currentStep z = 2 ∨ currentStep z = 3) ∧
  Forall (λ s, s ∈ map service_id services) (selectedServices z) ∧
  NoDup (selectedServices z) ∧
  Forall (λ c, c ∈ map fst countries) (selectedCountries z) ∧
  NoDup (selectedCountries z) ∧
  (timeline z = "" ∨ timeline z ∈ timelineOptions) ∧
  (2 ≤ currentStep z → selectedServices z ≠ []) ∧
  (currentStep z = 3 → selectedCountries z ≠ []).

(** [services.find(s => s.id === id)] *)
Definition find_service (id : string) : option Service :=
  List.find (λ s, String.eqb (service_id s) id) services.

(** [x || d] for a string [x] that may be undefined *)
Definition or_else (x : option string) (d : string) : string :=
  if truthy x then js_string x else d.

(** [Array.prototype.join]: an undefined element counts as empty *)
Definition join (sep : string) (l : list (option string)) : string :=
  String.concat sep (map (default "") l).

(** The fields of [projectData] in [handleComplete] (lines 165-186)
    that come from the selection *)
Definition projectData_title (z : Wizard) : string :=
  or_else
    (Some (join ", " (map (λ id, service_name <$> find_service id)
                          (selectedServices z))))
    "New Project".

Definition projectData_description (z : Wizard) : string :=
  "Project covering: " ++
  join ", " (map (λ id, service_name <$> find_service id) (selectedServices z)).

Definition projectData_project_type (z : Wizard) : string :=
  or_else (head (selectedServices z)) "other".

Definition projectData_country (z : Wizard) : string :=
  or_else (head (selectedCountries z)) "Nigeria".

Definition projectData_city (z : Wizard) : string :=
  if truthy (head (selectedCountries z))
  then js_string (head (selectedCountries z)) ++ " City"
  else "Lagos".

Definition projectData_deliverables (z : Wizard) : list string :=
  map (λ id, or_else (service_description <$> find_service id) "")
      (selectedServices z).

(** ** One call of any caller: the states it goes through *)

Inductive call_cycle (base : list Request) (k : Caller) (w : Browser) : Prop :=
  | call_sent (l : list Request) key c o :
      wire w = (base ++ l)%list →
      pending w = {[key := mkPending c AwaitingReply k o]} →
      _retry c = false → refresh_calls l = 0%nat →
      call_cycle base k w
  | call_refreshing (l : list Request) key c o :
      wire w = (base ++ l)%list →
      pending w = {[key := mkPending c AwaitingRefresh k o]} →
      _retry c = true → refresh_calls l = 1%nat →
      call_cycle base k w
  | call_resent (l : list Request) key c o :
      wire w = (base ++ l)%list →
      pending w = {[key := mkPending c AwaitingReply k o]} →
      _retry c = true → refresh_calls l = 1%nat →
      call_cycle base k w
  | call_over (l : list Request) :
      wire w = (base ++ l)%list →
      (refresh_calls l ≤ 1)%nat →
      (∀ key p, pending w !! key = Some p →
         caller p = LogoutCaller ∧ stage p = AwaitingReply ∧
         truthy (getItem "refresh_token" w) = false) →
      call_cycle base k w.

(** Sample values *)

Definition valid_form : FormData :=
  mkFormData "amina@example.com" "secret1234" "secret1234"
             "Amina" "Diallo" "+221700000000".

Definition valid_page : Browser :=
  with_page (λ _, mkRegisterPage valid_form "" false None) signed_out.

Definition wrong_password : Data :=
  ErrorData None None None
            (Some "No active account found with the given credentials").

(** What [login] resolves to when the rejection it catches carries no
    message of its own (Layout.tsx, line 475): its report of rejected
    credentials. *)
Definition login_failed_result : Settled :=
  AuthResult false (Some "Login failed. Please check your credentials.").

(** A page with no user whose storage holds an access token and no
    refresh token, as a refresh reply that arrives after [logout] leaves
    it. *)
Definition access_only : Browser :=
  mkBrowser (<["access_token" := "A1"]> ∅) None false "/login"
            [] [] ∅ ∅ blank_page.

Definition token_not_valid : Data :=
  ErrorData None None None (Some "Given token not valid for any token type").

(** The logout notification as it goes on the wire *)
Definition logout_notification : Request :=
  mkRequest ApiInstance (post "auth/logout/" NoBody).
(** * Properties *)

Lemma count_app {A} (f : A → bool) (l1 l2 : list A) :
  count f (l1 ++ l2) = (count f l1 + count f l2)%nat.
Proof. induction l1 as [|x l1 IH]; simpl; [done | rewrite IH; lia]. Qed.

Lemma deliver_not_pending n r w :
  pending w !! n = None → deliver n r w = w.
Proof. intros H. unfold deliver. by rewrite H. Qed.

Lemma deliver_pending n r w p :
  pending w !! n = Some p →
  deliver n r w =
    match stage p, axios_settle r with
    | AwaitingReply, inl response =>
        continue (caller p) (origin p) (inl response) (resume n w)
    | AwaitingReply, inr error => response_rejected error p (resume n w)
    | AwaitingRefresh, inl response => refresh_fulfilled response p (resume n w)
    | AwaitingRefresh, inr refreshError =>
        refresh_failed refreshError p (resume n w)
    end.
Proof. intros H. unfold deliver. by rewrite H. Qed.

(** The resend carries the token that the refresh returned, whether the
    request interceptor overwrites the header or leaves it. *)
Lemma request_interceptor_after_refresh cfg access w :
  request_interceptor
    (set_Authorization ("Bearer " ++ js_string access) cfg)
    (setItem "access_token" (js_string access) w)
  = set_Authorization ("Bearer " ++ js_string access) cfg.
Proof.
  unfold request_interceptor, getItem, setItem, with_localStorage; simpl.
  rewrite lookup_insert_eq. by destruct (truthy _).
Qed.

Lemma axios_settle_401 d :
  axios_settle (Replied 401 d) = inr (AxiosError (Some (401, d))).
Proof. reflexivity. Qed.

Lemma cycle_start w cfg :
  _retry cfg = false → pending w = ∅ →
  cycle (wire w) (api cfg ResourceCaller None w).
Proof.
  intros Hr Hp.
  eapply cycle_sent with (l := [_]); simpl; try reflexivity.
  - rewrite Hp. reflexivity.
  - unfold request_interceptor. destruct (truthy _); simpl; done.
Qed.

Lemma cycle_step base n r w : cycle base w → cycle base (deliver n r w).
Proof.
  intros [l k c o Hw Hp Hr Hrc Hac | l k c o Hw Hp Hr Hrc Hac
         | l k c o Hw Hp Hr Hrc Hac | l Hw Hp Hrc Hac].
  - destruct (decide (n = k)) as [->|Hne].
    2:{ rewrite deliver_not_pending; [by eapply cycle_sent|].
        rewrite Hp. by apply lookup_singleton_ne. }
    erewrite deliver_pending by (rewrite Hp; apply lookup_singleton_eq).
    simpl. destruct (axios_settle r) as [d|e].
    + eapply cycle_over with (l := l); simpl; [done| |lia|lia].
      rewrite Hp. apply delete_singleton_eq.
    + unfold response_rejected; simpl. rewrite Hr; simpl.
      destruct (bool_decide _); simpl.
      * destruct (truthy _); simpl.
        -- eapply cycle_refreshing with (l := (l ++ [_])%list); simpl.
           ++ rewrite Hw. by rewrite <- app_assoc.
           ++ rewrite Hp, delete_singleton_eq. reflexivity.
           ++ reflexivity.
           ++ unfold refresh_calls in *. rewrite count_app, Hrc. reflexivity.
           ++ unfold api_calls in *. rewrite count_app, Hac. reflexivity.
        -- eapply cycle_over with (l := l); simpl; [done| |lia|lia].
           rewrite Hp. apply delete_singleton_eq.
      * eapply cycle_over with (l := l); simpl; [done| |lia|lia].
        rewrite Hp. apply delete_singleton_eq.
  - destruct (decide (n = k)) as [->|Hne].
    2:{ rewrite deliver_not_pending; [by eapply cycle_refreshing|].
        rewrite Hp. by apply lookup_singleton_ne. }
    erewrite deliver_pending by (rewrite Hp; apply lookup_singleton_eq).
    simpl. destruct (axios_settle r) as [d|e].
    + unfold refresh_fulfilled, api; simpl.
      eapply cycle_resent with (l := (l ++ [_])%list); simpl.
      * rewrite Hw. by rewrite <- app_assoc.
      * rewrite Hp, delete_singleton_eq. reflexivity.
      * rewrite request_interceptor_after_refresh. done.
      * unfold refresh_calls in *. rewrite count_app, Hrc. reflexivity.
      * unfold api_calls in *. rewrite count_app, Hac. reflexivity.
    + eapply cycle_over with (l := l); simpl; [done| |lia|lia].
      rewrite Hp. apply delete_singleton_eq.
  - destruct (decide (n = k)) as [->|Hne].
    2:{ rewrite deliver_not_pending; [by eapply cycle_resent|].
        rewrite Hp. by apply lookup_singleton_ne. }
    erewrite deliver_pending by (rewrite Hp; apply lookup_singleton_eq).
    simpl. destruct (axios_settle r) as [d|e].
    + eapply cycle_over with (l := l); simpl; [done| |lia|lia].
      rewrite Hp. apply delete_singleton_eq.
    + unfold response_rejected; simpl. rewrite Hr, andb_false_r.
      eapply cycle_over with (l := l); simpl; [done| |lia|lia].
      rewrite Hp. apply delete_singleton_eq.
  - rewrite deliver_not_pending; [by eapply cycle_over|].
    by rewrite Hp.
Qed.

Lemma cycle_run base events w : cycle base w → cycle base (run events w).
Proof.
  revert w. induction events as [|[n r] events IH]; intros w H; [done|].
  apply IH. simpl. by apply cycle_step.
Qed.

Lemma cycle_bounds base w :
  cycle base w →
  (refresh_calls (drop (length base) (wire w)) ≤ 1)%nat ∧
  (api_calls (drop (length base) (wire w)) ≤ 2)%nat.
Proof.
  intros [l k c o Hw Hp Hr Hrc Hac | l k c o Hw Hp Hr Hrc Hac
         | l k c o Hw Hp Hr Hrc Hac | l Hw Hp Hrc Hac];
    rewrite Hw, drop_app_length; lia.
Qed.

(** ** The turns of the 401 handler, for any caller *)

Lemma axios_settle_2xx s d :
  200 ≤ s < 300 → axios_settle (Replied s d) = inl d.
Proof.
  intros [H1 H2]. simpl.
  apply Z.leb_le in H1. apply Z.ltb_lt in H2. by rewrite H1, H2.
Qed.

(** First 401, refresh token stored: the refresh call goes out. *)
Lemma deliver_401_refreshes k d w p refreshToken :
  pending w !! k = Some p → stage p = AwaitingReply →
  _retry (originalRequest p) = false →
  getItem "refresh_token" w = Some refreshToken →
  truthy (Some refreshToken) = true →
  deliver k (Replied 401 d) w =
    send (refresh_request refreshToken)
         (mkPending (set_retry (originalRequest p)) AwaitingRefresh
                    (caller p) (origin p))
         (resume k w).
Proof.
  intros Hp Hs Hr Hrt Ht. rewrite (deliver_pending _ _ _ _ Hp), Hs.
  rewrite axios_settle_401. unfold response_rejected. simpl.
  rewrite Hr. simpl.
  replace (getItem "refresh_token" (resume k w)) with (Some refreshToken)
    by (symmetry; exact Hrt).
  by rewrite Ht.
Qed.

(** First 401, no refresh token: the catch clause runs at once. *)
Lemma deliver_401_no_refresh_token k d w p :
  pending w !! k = Some p → stage p = AwaitingReply →
  _retry (originalRequest p) = false →
  truthy (getItem "refresh_token" w) = false →
  deliver k (Replied 401 d) w =
    refresh_failed (PlainError "No refresh token") p (resume k w).
Proof.
  intros Hp Hs Hr Ht. rewrite (deliver_pending _ _ _ _ Hp), Hs.
  rewrite axios_settle_401. unfold response_rejected. simpl.
  rewrite Hr. simpl.
  replace (getItem "refresh_token" (resume k w))
    with (getItem "refresh_token" w) by reflexivity.
  by rewrite Ht.
Qed.

(** The refresh call succeeded: the token is stored and the original
    request is sent again. *)
Lemma deliver_refresh_fulfilled k s response w p :
  pending w !! k = Some p → stage p = AwaitingRefresh → 200 ≤ s < 300 →
  deliver k (Replied s response) w =
    let c := set_Authorization ("Bearer " ++ js_string (data_access response))
                               (originalRequest p) in
    send (mkRequest ApiInstance c)
         (mkPending c AwaitingReply (caller p) (origin p))
         (setItem "access_token" (js_string (data_access response))
                  (resume k w)).
Proof.
  intros Hp Hs H2. rewrite (deliver_pending _ _ _ _ Hp), Hs.
  rewrite (axios_settle_2xx _ _ H2). unfold refresh_fulfilled, api.
  rewrite request_interceptor_after_refresh. reflexivity.
Qed.

(** The refresh call failed. *)
Lemma deliver_refresh_rejected k r e w p :
  pending w !! k = Some p → stage p = AwaitingRefresh →
  axios_settle r = inr e →
  deliver k r w = refresh_failed e p (resume k w).
Proof.
  intros Hp Hs He. by rewrite (deliver_pending _ _ _ _ Hp), Hs, He.
Qed.

(** A request that carries the marker: its reply, whatever it is, goes
    to the caller. *)
Lemma deliver_marked k r w p :
  pending w !! k = Some p → stage p = AwaitingReply →
  _retry (originalRequest p) = true →
  deliver k r w = continue (caller p) (origin p) (axios_settle r) (resume k w).
Proof.
  intros Hp Hs Hr. rewrite (deliver_pending _ _ _ _ Hp), Hs.
  destruct (axios_settle r) as [d|e]; [done|].
  unfold response_rejected. by rewrite Hr, andb_false_r.
Qed.

(** A rejection other than 401 goes to the caller. *)
Lemma deliver_other_rejection k r e w p :
  pending w !! k = Some p → stage p = AwaitingReply →
  axios_settle r = inr e → error_status e ≠ Some 401 →
  deliver k r w = continue (caller p) (origin p) (inr e) (resume k w).
Proof.
  intros Hp Hs He Hn. rewrite (deliver_pending _ _ _ _ Hp), Hs, He.
  unfold response_rejected. by rewrite bool_decide_eq_false_2.
Qed.

Lemma deliver_fulfilled k s d w p :
  pending w !! k = Some p → stage p = AwaitingReply → 200 ≤ s < 300 →
  deliver k (Replied s d) w = continue (caller p) (origin p) (inl d) (resume k w).
Proof.
  intros Hp Hs H2.
  by rewrite (deliver_pending _ _ _ _ Hp), Hs, (axios_settle_2xx _ _ H2).
Qed.

(** C1. A resource request that receives a 401 goes through the refresh
    and retry cycle at most once.  Whatever replies arrive, the call puts
    at most one refresh request and at most two requests of its own on the
    wire.  When a refresh token is stored, the 401 handler sets the
    marker on the request and sends the refresh call; when that call
    succeeds, the original request is sent once more, with the new access
    token; the reply to the resend, a 401 included, settles the promise of
    the original caller and nothing more is sent. *)
Theorem refresh_and_retry_at_most_once (w : Browser) (cfg : Config) :
  _retry cfg = false → pending w = ∅ →
  let n := length (wire w) in
  let w0 := api cfg ResourceCaller None w in
  (∀ events,
     (refresh_calls (drop n (wire (run events w0))) ≤ 1)%nat ∧
     (api_calls (drop n (wire (run events w0))) ≤ 2)%nat) ∧
  (∀ d refreshToken,
     getItem "refresh_token" w = Some refreshToken →
     truthy (Some refreshToken) = true →
     let w1 := deliver n (Replied 401 d) w0 in
     wire w1 = (wire w0 ++ [refresh_request refreshToken])%list ∧
     pending w1 =
       {[S n := mkPending (set_retry (request_interceptor cfg w))
                          AwaitingRefresh ResourceCaller n]} ∧
     ∀ s response, 200 ≤ s < 300 →
       let w2 := deliver (S n) (Replied s response) w1 in
       wire w2 =
         (wire w1 ++
          [mkRequest ApiInstance (resend_config cfg (data_access response))])%list ∧
       ∀ r, let w3 := deliver (S (S n)) r w2 in
         wire w3 = wire w2 ∧ pending w3 = ∅ ∧
         settled w3 !! n = Some (outcome r)).
Proof.
  intros Hr Hp n w0. split.
  - intros events. apply cycle_bounds, cycle_run, cycle_start; done.
  - intros d refreshToken Hrt Ht w1.
    assert (Hr0 : _retry (request_interceptor cfg w) = false).
    { unfold request_interceptor.
      destruct (truthy (getItem "access_token" w)); exact Hr. }
    assert (Hw1 : w1 = send (refresh_request refreshToken)
              (mkPending (set_retry (request_interceptor cfg w))
                         AwaitingRefresh ResourceCaller n) (resume n w0)).
    { apply (deliver_401_refreshes n d w0
               (mkPending (request_interceptor cfg w) AwaitingReply
                          ResourceCaller n));
        [apply lookup_insert_eq | done | exact Hr0 | exact Hrt | done]. }
    assert (Hlen1 : length (wire (resume n w0)) = S n).
    { simpl. rewrite length_app. simpl. unfold n. lia. }
    assert (Hp1 : pending w1 =
       {[S n := mkPending (set_retry (request_interceptor cfg w))
                          AwaitingRefresh ResourceCaller n]}).
    { rewrite Hw1. simpl. rewrite length_app, Hp. simpl.
      replace (length (wire w) + 1)%nat with (S n) by (unfold n; lia).
      by rewrite delete_insert_eq, delete_empty. }
    split; [by rewrite Hw1|]. split; [exact Hp1|].
    intros s response H2 w2.
    assert (Hw2 : w2 =
      let c := set_Authorization
                 ("Bearer " ++ js_string (data_access response))
                 (set_retry (request_interceptor cfg w)) in
      send (mkRequest ApiInstance c)
           (mkPending c AwaitingReply ResourceCaller n)
           (setItem "access_token" (js_string (data_access response))
                    (resume (S n) w1))).
    { apply (deliver_refresh_fulfilled (S n) s response w1
               (mkPending (set_retry (request_interceptor cfg w))
                          AwaitingRefresh ResourceCaller n));
        [rewrite Hp1; apply lookup_singleton_eq | done | done]. }
    assert (Hc : set_Authorization
                 ("Bearer " ++ js_string (data_access response))
                 (set_retry (request_interceptor cfg w))
               = resend_config cfg (data_access response)).
    { unfold request_interceptor.
      by destruct (truthy (getItem "access_token" w)). }
    split; [by rewrite Hw2; simpl; rewrite Hc|].
    intros r w3.
    assert (Hp2 : pending w2 =
      {[S (S n) := mkPending (resend_config cfg (data_access response))
                             AwaitingReply ResourceCaller n]}).
    { rewrite Hw2. cbn -[n w1]. rewrite Hp1, delete_singleton_eq, Hc.
      rewrite Hw1. simpl. rewrite !length_app. simpl.
      replace (length (wire w) + 1 + 1)%nat with (S (S n)) by (unfold n; lia).
      reflexivity. }
    assert (Hw3 : w3 = continue ResourceCaller n (axios_settle r)
                         (resume (S (S n)) w2)).
    { apply (deliver_marked (S (S n)) r w2
               (mkPending (resend_config cfg (data_access response))
                          AwaitingReply ResourceCaller n));
        [rewrite Hp2; apply lookup_singleton_eq | done | done]. }
    rewrite Hw3. unfold outcome.
    destruct (axios_settle r); simpl; rewrite Hp2, delete_singleton_eq;
      (split; [done | split; [done | apply lookup_insert_eq]]).
Qed.

Lemma refresh_and_retry_at_most_once_witness :
  _retry (get "projects/") = false ∧ pending signed_in = ∅ ∧
  getItem "refresh_token" signed_in = Some "R1" ∧
  truthy (Some "R1") = true ∧ 200 ≤ 200 < 300 ∧
  (∀ events,
     (refresh_calls
        (drop 0 (wire (run events
                         (api (get "projects/") ResourceCaller None signed_in))))
      ≤ 1)%nat) ∧
  settled
    (run [(0, Replied 401 expired);
          (1, Replied 200 (TokenData (Some "A2") None None));
          (2, Replied 401 expired)]%nat
         (api (get "projects/") ResourceCaller None signed_in)) !! 0%nat
  = Some (Rejected (AxiosError (Some (401, expired)))).
Proof.
  destruct (refresh_and_retry_at_most_once signed_in (get "projects/")
              eq_refl eq_refl) as [Hbound Hcycle].
  do 4 (split; [reflexivity|]). split; [lia|]. split.
  - intros events. apply (Hbound events).
  - destruct (Hcycle expired "R1" eq_refl eq_refl) as (_ & _ & Hresend).
    destruct (Hresend 200 (TokenData (Some "A2") None None)) as [_ Hlast];
      [lia|].
    apply (Hlast (Replied 401 expired)).
Defined.

(** ** Several calls in flight *)

Lemma start_all_snoc cfgs cfg w :
  start_all (cfgs ++ [cfg]) w = api cfg ResourceCaller None (start_all cfgs w).
Proof. unfold start_all. by rewrite foldl_snoc. Qed.

Lemma start_all_localStorage cfgs w :
  localStorage (start_all cfgs w) = localStorage w.
Proof.
  induction cfgs as [|cfg cfgs IH] using rev_ind; [done|].
  by rewrite start_all_snoc.
Qed.

Lemma request_interceptor_ext cfg w w' :
  localStorage w = localStorage w' →
  request_interceptor cfg w = request_interceptor cfg w'.
Proof. intros H. unfold request_interceptor, getItem. by rewrite H. Qed.

Lemma start_all_wire cfgs w :
  wire (start_all cfgs w) =
    (wire w ++ map (λ c, mkRequest ApiInstance (request_interceptor c w)) cfgs)%list.
Proof.
  induction cfgs as [|cfg cfgs IH] using rev_ind.
  - simpl. by rewrite app_nil_r.
  - rewrite start_all_snoc. simpl. rewrite IH, map_app, app_assoc. simpl.
    by rewrite (request_interceptor_ext cfg _ w)
      by apply start_all_localStorage.
Qed.

Lemma start_all_length cfgs w :
  length (wire (start_all cfgs w)) = (length (wire w) + length cfgs)%nat.
Proof. by rewrite start_all_wire, length_app, length_map. Qed.

Lemma start_all_pending cfgs w i cfg :
  cfgs !! i = Some cfg →
  pending (start_all cfgs w) !! (length (wire w) + i)%nat =
    Some (mkPending (request_interceptor cfg w) AwaitingReply ResourceCaller
                    (length (wire w) + i)).
Proof.
  revert i cfg. induction cfgs as [|c cfgs IH] using rev_ind; intros i cfg Hi.
  - done.
  - rewrite start_all_snoc. simpl. rewrite start_all_length.
    destruct (decide (i = length cfgs)) as [->|Hne].
    + rewrite lookup_insert_eq.
      rewrite lookup_app_r, Nat.sub_diag in Hi by done. simpl in Hi.
      injection Hi as ->.
      by rewrite (request_interceptor_ext cfg _ w)
        by apply start_all_localStorage.
    + rewrite lookup_insert_ne by lia. apply IH.
      rewrite lookup_app_l in Hi; [done|].
      apply lookup_lt_Some in Hi. rewrite length_app in Hi. simpl in Hi. lia.
Qed.

Lemma run_cons n r events w :
  run ((n, r) :: events) w = run events (deliver n r w).
Proof. reflexivity. Qed.

(** Each 401 that arrives before any refresh reply sends a refresh call
    of its own: nothing records that one is already in flight. *)
Lemma run_all_401 body refreshToken ks : ∀ w,
  NoDup ks →
  (∀ k, k ∈ ks → (k < length (wire w))%nat ∧
     ∃ p, pending w !! k = Some p ∧ stage p = AwaitingReply ∧
          _retry (originalRequest p) = false) →
  getItem "refresh_token" w = Some refreshToken →
  truthy (Some refreshToken) = true →
  let w1 := run (all_401 body ks) w in
  wire w1 =
    (wire w ++ replicate (length ks) (refresh_request refreshToken))%list ∧
  localStorage w1 = localStorage w ∧
  (∀ m, (m < length (wire w))%nat → m ∉ ks → pending w1 !! m = pending w !! m) ∧
  (∀ j k p, ks !! j = Some k → pending w !! k = Some p →
     pending w1 !! (length (wire w) + j)%nat =
       Some (mkPending (set_retry (originalRequest p)) AwaitingRefresh
                       (caller p) (origin p))).
Proof.
  induction ks as [|k ks IH]; intros w Hnd Hks Hrt Ht.
  - simpl. rewrite app_nil_r. repeat split; done.
  - apply NoDup_cons in Hnd as [Hk Hnd].
    destruct (Hks k) as (Hlt & p & Hp & Hs & Hr); [apply list_elem_of_here|].
    change (all_401 body (k :: ks))
      with ((k, Replied 401 (body k)) :: all_401 body ks).
    rewrite run_cons.
    rewrite (deliver_401_refreshes k _ w p refreshToken) by done.
    set (w' := send _ _ _).
    assert (Hw' : wire w' = (wire w ++ [refresh_request refreshToken])%list)
      by done.
    assert (Hl' : length (wire w') = S (length (wire w))).
    { rewrite Hw', length_app. simpl. lia. }
    assert (Hfr : ∀ m, m ≠ k → m ≠ length (wire w) →
              pending w' !! m = pending w !! m).
    { intros m H1 H2. simpl.
      by rewrite lookup_insert_ne, lookup_delete_ne by done. }
    destruct (IH w') as (IH1 & IH2 & IH3 & IH4); [done| |done|done|].
    { intros k' Hk'.
      destruct (Hks k') as (Hlt' & p' & Hp' & Hsr);
        [by apply list_elem_of_further|].
      split; [lia|]. exists p'. split; [|done].
      rewrite Hfr; [done| |lia]. intros ->. done. }
    split; [|split; [|split]].
    + rewrite IH1, Hw', <- app_assoc. done.
    + rewrite IH2. done.
    + intros m Hm Hmk. rewrite IH3; [|lia|].
      * apply Hfr; [|lia]. intros ->. apply Hmk, list_elem_of_here.
      * intros Hin. by apply Hmk, list_elem_of_further.
    + intros j k' p' Hj Hp'. destruct j as [|j]; simpl in Hj.
      * injection Hj as <-. rewrite Nat.add_0_r.
        rewrite IH3; [|lia|].
        -- simpl. rewrite lookup_insert_eq. congruence.
        -- intros Hin.
           destruct (Hks (length (wire w))) as [? _];
             [by apply list_elem_of_further|lia].
      * replace (length (wire w) + S j)%nat with (length (wire w') + j)%nat by lia.
        apply (IH4 j k'); [done|]. rewrite Hfr; [done| |].
        -- intros ->. apply Hk. by eapply list_elem_of_lookup_2.
        -- destruct (Hks k') as [? _]; [|lia].
           apply list_elem_of_further. by eapply list_elem_of_lookup_2.
Qed.

Lemma refresh_calls_replicate n refreshToken :
  refresh_calls (replicate n (refresh_request refreshToken)) = n.
Proof.
  unfold refresh_calls. induction n as [|n IH]; [done|].
  simpl. by rewrite IH.
Qed.

Lemma request_interceptor_retry cfg w :
  _retry (request_interceptor cfg w) = _retry cfg.
Proof.
  unfold request_interceptor.
  by destruct (truthy (getItem "access_token" w)).
Qed.

Lemma resend_config_eq cfg access w :
  set_Authorization ("Bearer " ++ js_string access)
                    (set_retry (request_interceptor cfg w))
  = resend_config cfg access.
Proof.
  unfold request_interceptor.
  by destruct (truthy (getItem "access_token" w)).
Qed.

(** C2, as the code has it.  When [N] resource calls each receive a 401
    before any refresh reply has arrived, and a refresh token is stored,
    [N] refresh calls go out, one for each of them, in the order of the
    401s.  The call that sent the [j]-th refresh request is suspended on
    that request, and when its reply arrives the call is sent again with
    the access token of that very reply, which is also the one then
    stored. *)
Theorem one_refresh_per_unauthorized_call
    (w : Browser) (cfgs : list Config) (ks : list nat) (body : nat → Data)
    (refreshToken : string) :
  Forall (λ c, _retry c = false) cfgs →
  getItem "refresh_token" w = Some refreshToken →
  truthy (Some refreshToken) = true →
  ks ≡ₚ seq (length (wire w)) (length cfgs) →
  let n := length (wire w) in
  let N := length cfgs in
  let w0 := start_all cfgs w in
  let w1 := run (all_401 body ks) w0 in
  wire w1 = (wire w0 ++ replicate N (refresh_request refreshToken))%list ∧
  refresh_calls (drop (n + N) (wire w1)) = N ∧
  ∀ j k cfg, ks !! j = Some k → cfgs !! (k - n)%nat = Some cfg →
    let mine := mkPending (set_retry (request_interceptor cfg w))
                          AwaitingRefresh ResourceCaller k in
    pending w1 !! (n + N + j)%nat = Some mine ∧
    ∀ w' s response,
      pending w' !! (n + N + j)%nat = Some mine → 200 ≤ s < 300 →
      let w2 := deliver (n + N + j) (Replied s response) w' in
      wire w2 =
        (wire w' ++
         [mkRequest ApiInstance (resend_config cfg (data_access response))])%list ∧
      getItem "access_token" w2 = Some (js_string (data_access response)).
Proof.
  intros Hcfgs Hrt Ht Hperm n N w0 w1.
  assert (Hlen : length ks = N).
  { by rewrite Hperm, length_seq. }
  assert (Hin : ∀ k, k ∈ ks → (n ≤ k < n + N)%nat).
  { intros k Hk. rewrite Hperm in Hk. by apply elem_of_seq in Hk. }
  assert (Hpend : ∀ k, k ∈ ks → ∃ cfg, cfgs !! (k - n)%nat = Some cfg ∧
            pending w0 !! k =
              Some (mkPending (request_interceptor cfg w) AwaitingReply
                              ResourceCaller k)).
  { intros k Hk. apply Hin in Hk.
    destruct (lookup_lt_is_Some_2 cfgs (k - n)) as [cfg Hcfg]; [unfold N in Hk; lia|].
    exists cfg. split; [done|].
    pose proof (start_all_pending cfgs w (k - n) cfg Hcfg) as H.
    fold n in H. by replace (n + (k - n))%nat with k in H by lia. }
  destruct (run_all_401 body refreshToken ks w0) as (H1 & H2 & H3 & H4).
  - rewrite Hperm. apply NoDup_seq.
  - intros k Hk. split.
    + unfold w0. rewrite start_all_length. apply Hin in Hk. fold n N. lia.
    + destruct (Hpend k Hk) as (cfg & Hcfg & Hp). eexists. split; [exact Hp|].
      split; [done|]. simpl. rewrite request_interceptor_retry.
      eapply Forall_lookup_1 in Hcfgs; [exact Hcfgs | exact Hcfg].
  - unfold w0, getItem. by rewrite start_all_localStorage.
  - done.
  - fold w1 in H1, H2, H3, H4. rewrite Hlen in H1.
    assert (Hl0 : length (wire w0) = (n + N)%nat) by apply start_all_length.
    split; [done|]. split.
    { rewrite H1, <- Hl0, drop_app_length. apply refresh_calls_replicate. }
    intros j k cfg Hj Hcfg mine.
    assert (Hk : k ∈ ks) by (by eapply list_elem_of_lookup_2).
    destruct (Hpend k Hk) as (cfg' & Hcfg' & Hp).
    assert (cfg' = cfg) as -> by congruence.
    split.
    { rewrite <- Hl0. by rewrite (H4 j k _ Hj Hp). }
    intros w' s response Hmine H2xx w2.
    unfold w2. rewrite (deliver_refresh_fulfilled _ s response w' mine) by done.
    simpl. rewrite resend_config_eq. split; [done|].
    unfold getItem. simpl. apply lookup_insert_eq.
Qed.

Lemma one_refresh_per_unauthorized_call_witness :
  let w1 := run (all_401 (λ _, expired) [0; 1]%nat)
                (start_all two_calls signed_in) in
  Forall (λ c, _retry c = false) two_calls ∧
  getItem "refresh_token" signed_in = Some "R1" ∧
  truthy (Some "R1") = true ∧
  [0; 1]%nat ≡ₚ seq (length (wire signed_in)) (length two_calls) ∧
  [0; 1]%nat !! 0%nat = Some 0%nat ∧
  two_calls !! 0%nat = Some (get "projects/") ∧
  200 ≤ 200 < 300 ∧
  refresh_calls (drop 2 (wire w1)) = 2%nat ∧
  getItem "access_token"
    (deliver 2 (Replied 200 (TokenData (Some "A2") None None)) w1)
  = Some "A2".
Proof.
  intros w1.
  assert (H1 : Forall (λ c, _retry c = false) two_calls)
    by (repeat constructor).
  assert (H2 : [0; 1]%nat ≡ₚ seq (length (wire signed_in)) (length two_calls))
    by reflexivity.
  destruct (one_refresh_per_unauthorized_call signed_in two_calls [0; 1]%nat
              (λ _, expired) "R1" H1 eq_refl eq_refl H2)
    as (_ & Hcount & Heach).
  destruct (Heach 0%nat 0%nat (get "projects/") eq_refl eq_refl)
    as [Hmine Hretry].
  split; [exact H1|]. do 2 (split; [reflexivity|]). split; [exact H2|].
  do 2 (split; [reflexivity|]). split; [lia|]. split; [exact Hcount|].
  apply (Hretry w1 200 (TokenData (Some "A2") None None) Hmine). lia.
Defined.

(** C2, as stated, fails: two calls that both receive a 401 before any
    refresh reply cause two refresh requests, not one. *)
Lemma two_unauthorized_calls_two_refreshes :
  ¬ (refresh_calls
       (wire (run (all_401 (λ _, expired) [0; 1]%nat)
                  (start_all two_calls signed_in))) = 1%nat).
Proof. vm_compute. discriminate. Qed.

(** ** Failure of the refresh *)

Lemma removeItem_tokens w :
  no_tokens (removeItem "refresh_token" (removeItem "access_token" w)).
Proof.
  unfold no_tokens, getItem. simpl. split.
  - by rewrite lookup_delete_ne, lookup_delete_eq.
  - by rewrite lookup_delete_eq.
Qed.

(** A page loaded with no access token in storage starts without a user
    and sends nothing. *)
Lemma bootstrap_without_token storage location :
  truthy (storage !! "access_token") = false →
  let w := bootstrap storage location in
  user w = None ∧ isLoading w = false ∧ wire w = [].
Proof.
  intros H. unfold bootstrap, initAuth, getItem. simpl. by rewrite H.
Qed.

(** C4, on the code.  The server answers the refresh call with a new
    access token and a new refresh token.  The handler stores the access
    token and leaves the old refresh token in storage, whereas [login]
    stores both tokens of its response. *)
Theorem refresh_keeps_the_old_refresh_token :
  let rotated := TokenData (Some "A2") (Some "R2") None in
  let refreshed :=
    run [(0, Replied 401 expired); (1, Replied 200 rotated)]%nat
        (api (get "projects/") ResourceCaller None signed_in) in
  let logged_in :=
    deliver 0 (Replied 200 rotated)
            (login "amina@example.com" "secret1234" signed_out) in
  (getItem "access_token" refreshed = Some "A2" ∧
   getItem "refresh_token" refreshed = Some "R1") ∧
  (getItem "access_token" logged_in = Some "A2" ∧
   getItem "refresh_token" logged_in = Some "R2").
Proof. vm_compute. repeat split. Qed.

(** ** Replies that arrive after logout *)

Lemma logout_no_tokens w : no_tokens (logout w).
Proof. apply (removeItem_tokens w). Qed.

(** C5, as the code has it.  A profile request is in flight when
    [logout] is called.  [logout] clears the tokens and the user; when
    the profile response then arrives, it is applied: the user becomes
    the payload of the response, while the tokens stay erased. *)
Theorem late_profile_response_is_applied
    (w : Browser) (from_initAuth : bool) (s : Z) (d : Data) :
  200 ≤ s < 300 →
  let n := length (wire w) in
  let w2 := logout (refreshUser from_initAuth w) in
  let w3 := deliver n (Replied s d) w2 in
  cleared w2 ∧ user w3 = Some d ∧ no_tokens w3.
Proof.
  intros H2xx n w2 w3.
  assert (Hp : pending w2 !! n =
     Some (mkPending (request_interceptor (get "auth/user/profile/") w)
                     AwaitingReply (RefreshUserCaller from_initAuth) n)).
  { simpl. rewrite length_app. simpl.
    rewrite lookup_insert_ne by (unfold n; lia). apply lookup_insert_eq. }
  split; [split; [apply logout_no_tokens | done]|].
  unfold w3. rewrite (deliver_fulfilled _ _ _ _ _ Hp eq_refl H2xx).
  simpl. destruct from_initAuth; simpl; (split; [done|]).
  - apply (removeItem_tokens (refreshUser true w)).
  - apply (removeItem_tokens (refreshUser false w)).
Qed.

Lemma late_profile_response_is_applied_witness :
  200 ≤ 200 < 300 ∧
  user (deliver 0 (Replied 200 (ProfileData amina))
                (logout (refreshUser false signed_in)))
  = Some (ProfileData amina).
Proof.
  split; [lia|].
  apply (late_profile_response_is_applied signed_in false 200
           (ProfileData amina)). lia.
Defined.

(** C5, as stated, fails: the profile response that arrives after
    [logout] puts a user back in memory. *)
Lemma late_profile_response_rehydrates_user :
  ¬ (user (deliver 0 (Replied 200 (ProfileData amina))
                   (logout (refreshUser false signed_in)))
     = None).
Proof. vm_compute. discriminate. Qed.

(** ** Sign-in and registration *)

Lemma js_or_default x m : ∃ m', js_or x (Some m) = Some m'.
Proof. destruct x as [[|c s]|]; simpl; eauto. Qed.

Lemma login_rejected_spec e o w :
  let w' := login_rejected e o w in
  localStorage w' = localStorage w ∧ user w' = user w ∧
  isLoading w' = false ∧ wire w' = wire w ∧ pending w' = pending w ∧
  ∃ message, settled w' !! o = Some (AuthResult false (Some message)).
Proof.
  simpl. repeat (split; [done|]).
  destruct (js_or_default
              (js_or (index0 (error_data e ≫= data_non_field_errors))
                     (error_data e ≫= data_detail))
              "Login failed. Please check your credentials.") as [m Hm].
  exists m. unfold login_rejected. simpl. rewrite lookup_insert_eq.
  by rewrite Hm.
Qed.

(** C6.  [login] is called with no token stored and no user held, and
    the token endpoint rejects the request (any status outside 2xx, or no
    reply at all).  Then storage is what it was before the call, the user
    is still absent, and the promise of [login] resolves to a result with
    [success] false and a message; nothing but the login request has been
    sent. *)
Theorem rejected_login_writes_nothing
    (w : Browser) (email password : string) (r : Reply) (e : JsError) :
  no_tokens w → user w = None → axios_settle r = inr e →
  let n := length (wire w) in
  let w1 := login email password w in
  let w2 := deliver n r w1 in
  localStorage w1 = localStorage w ∧
  localStorage w2 = localStorage w ∧
  user w2 = None ∧ isAuthenticated w2 = false ∧ isLoading w2 = false ∧
  (∃ message, settled w2 !! n = Some (AuthResult false (Some message))) ∧
  wire w2 = wire w1.
Proof.
  intros Hno Hu He n w1 w2.
  set (p := mkPending
              (request_interceptor (post "auth/token/" (LoginBody email password))
                                   (setIsLoading true w))
              AwaitingReply LoginCaller n).
  assert (Hp : pending w1 !! n = Some p) by apply lookup_insert_eq.
  assert (Hr : _retry (originalRequest p) = false)
    by apply request_interceptor_retry.
  split; [done|].
  assert (Hw2 : ∃ e', w2 = login_rejected e' n
                  (set_href (if bool_decide (error_status e = Some 401)
                             then "/login" else href w)
                            (with_localStorage (λ _, localStorage w)
                                               (resume n w1)))).
  { destruct (decide (error_status e = Some 401)) as [H401|H401].
    - exists (PlainError "No refresh token").
      rewrite (bool_decide_eq_true_2 _ H401).
      unfold w2. rewrite (deliver_pending _ _ _ _ Hp), He. simpl.
      unfold response_rejected. rewrite (bool_decide_eq_true_2 _ H401), Hr.
      simpl. destruct Hno as [Ha Hrt]. unfold getItem in *. simpl.
      rewrite Hrt. simpl. unfold refresh_failed. simpl.
      f_equal. unfold removeItem, with_localStorage, set_href. simpl.
      rewrite (delete_id _ "access_token") by done.
      by rewrite delete_id.
    - exists e. rewrite (bool_decide_eq_false_2 _ H401).
      unfold w2. rewrite (deliver_other_rejection _ _ e _ p) by done.
      reflexivity. }
  destruct Hw2 as [e' ->].
  match goal with
  | |- context [login_rejected e' n ?w0] =>
      destruct (login_rejected_spec e' n w0) as (H1 & H2 & H3 & H4 & H5 & H6)
  end.
  simpl in *.
  split; [done|]. split; [done|].
  split; [unfold isAuthenticated; simpl; by rewrite Hu|].
  split; [done|]. split; [exact H6|]. done.
Qed.

Lemma rejected_login_writes_nothing_witness :
  let e := AxiosError (Some (401, expired)) in
  no_tokens signed_out ∧ user signed_out = None ∧
  axios_settle (Replied 401 expired) = inr e ∧
  localStorage
    (deliver 0 (Replied 401 expired)
             (login "amina@example.com" "wrong" signed_out))
  = localStorage signed_out.
Proof.
  intros e.
  assert (Hno : no_tokens signed_out) by (split; reflexivity).
  split; [exact Hno|]. split; [reflexivity|]. split; [reflexivity|].
  apply (rejected_login_writes_nothing signed_out "amina@example.com" "wrong"
           (Replied 401 expired) e Hno eq_refl eq_refl).
Defined.

(** C7.  When the password typed on the registration page has fewer
    than eight characters, or differs from its confirmation,
    [handleSubmit] sets a validation message on the page and returns:
    no request is sent, nobody is suspended, and storage and the user are
    untouched. *)
Theorem invalid_password_stops_before_the_network (w : Browser) :
  let f := formData (page w) in
  (String.length (form_password f) < 8)%nat ∨
  form_password f ≠ form_confirmPassword f →
  let w' := handleSubmit w in
  wire w' = wire w ∧ pending w' = pending w ∧
  localStorage w' = localStorage w ∧ user w' = user w ∧
  settled w' = settled w ∧
  (error (page w') = "Passwords do not match" ∨
   error (page w') = "Password must be at least 8 characters long") ∧
  page_isLoading (page w') = false.
Proof.
  intros f Hbad w'. unfold w', handleSubmit. simpl. fold f.
  destruct (String.eqb_spec (form_password f) (form_confirmPassword f))
    as [Heq|Hne]; simpl.
  - destruct Hbad as [Hshort|Hne]; [|done].
    apply Nat.ltb_lt in Hshort. rewrite Hshort. simpl.
    repeat (split; [done|]). split; [by right | done].
  - repeat (split; [done|]). split; [by left | done].
Qed.

Lemma invalid_password_stops_before_the_network_witness :
  ((String.length (form_password (formData (page short_password_page))) < 8)%nat ∨
   form_password (formData (page short_password_page))
   ≠ form_confirmPassword (formData (page short_password_page))) ∧
  wire (handleSubmit short_password_page) = [].
Proof.
  assert (H : (String.length
                 (form_password (formData (page short_password_page))) < 8)%nat)
    by (simpl; lia).
  split; [left; exact H|].
  apply (invalid_password_stops_before_the_network short_password_page
           (or_introl H)).
Defined.

(** ** Logout *)

Lemma request_interceptor_no_token cfg w :
  getItem "access_token" w = None → request_interceptor cfg w = cfg.
Proof. intros H. unfold request_interceptor. by rewrite H. Qed.

(** C8.  [logout] first removes both tokens and the user, and sends the
    logout notification from the state so cleared, hence without an
    Authorization header.  It returns nothing to its caller.  When the
    notification fails, whatever the failure, the state stays cleared,
    no promise of any caller is settled, nothing more is sent, and the
    error goes to the console. *)
Theorem logout_clears_then_notifies (w : Browser) :
  let n := length (wire w) in
  let erased :=
    setUser None (removeItem "refresh_token" (removeItem "access_token" w)) in
  let w1 := logout w in
  cleared erased ∧
  w1 = set_href "/" (authAPI_logout erased) ∧
  wire w1 = (wire w ++ [mkRequest ApiInstance (post "auth/logout/" NoBody)])%list ∧
  cleared w1 ∧ settled w1 = settled w ∧
  ∀ r e, axios_settle r = inr e →
    let w2 := deliver n r w1 in
    cleared w2 ∧ settled w2 = settled w ∧ wire w2 = wire w1 ∧
    ∃ e', console w2 = (console w ++ [("", e')])%list.
Proof.
  intros n erased w1.
  assert (Hno : no_tokens erased) by apply (removeItem_tokens w).
  assert (Hcfg : request_interceptor (post "auth/logout/" NoBody) erased
                 = post "auth/logout/" NoBody).
  { apply request_interceptor_no_token, Hno. }
  split; [by split|]. split; [done|].
  split; [unfold w1, logout, authAPI_logout, api; fold erased;
          by rewrite Hcfg|].
  split; [split; [apply logout_no_tokens | done]|]. split; [done|].
  intros r e He w2.
  set (p := mkPending (post "auth/logout/" NoBody) AwaitingReply LogoutCaller n).
  assert (Hp : pending w1 !! n = Some p).
  { unfold w1, logout, authAPI_logout, api. fold erased. rewrite Hcfg.
    apply lookup_insert_eq. }
  assert (Hw2 : ∃ e', w2 = console_error "" e'
                  (set_href (if bool_decide (error_status e = Some 401)
                             then "/login" else "/")
                            (resume n w1))).
  { destruct (decide (error_status e = Some 401)) as [H401|H401].
    - exists (PlainError "No refresh token").
      rewrite (bool_decide_eq_true_2 _ H401).
      unfold w2. rewrite (deliver_pending _ _ _ _ Hp), He. simpl.
      unfold response_rejected. rewrite (bool_decide_eq_true_2 _ H401).
      simpl. unfold getItem. simpl. rewrite lookup_delete_eq. simpl.
      unfold refresh_failed. simpl. unfold console_error, set_href. simpl.
      f_equal. rewrite (delete_id _ "access_token").
      + apply delete_id, lookup_delete_eq.
      + by rewrite lookup_delete_ne, lookup_delete_eq.
    - exists e. rewrite (bool_decide_eq_false_2 _ H401).
      unfold w2. by rewrite (deliver_other_rejection _ _ e _ p). }
  destruct Hw2 as [e' ->]. simpl.
  split; [split; [apply (removeItem_tokens w) | done]|].
  split; [done|]. split; [done|]. by exists e'.
Qed.

Lemma logout_clears_then_notifies_witness :
  axios_settle NoReply = inr (AxiosError None) ∧
  cleared (deliver 0 NoReply (logout signed_in)) ∧
  settled (deliver 0 NoReply (logout signed_in)) = ∅.
Proof.
  split; [reflexivity|].
  destruct (logout_clears_then_notifies signed_in) as (_ & _ & _ & _ & _ & H).
  destruct (H NoReply (AxiosError None) eq_refl) as (H1 & H2 & _).
  split; [exact H1 | exact H2].
Defined.

(** ** Start of the page *)

Lemma refreshUser_rejected_anonymous e o w :
  anonymous (refreshUser_rejected e true o w).
Proof.
  unfold refreshUser_rejected.
  split; [split; [|done]|done].
  apply (removeItem_tokens
           (console_error "Failed to refresh user:" e
              (logout (console_error "Failed to refresh user:" e w)))).
Qed.

Lemma refresh_failed_anonymous e p w :
  caller p = RefreshUserCaller true → anonymous (refresh_failed e p w).
Proof.
  intros H. unfold refresh_failed. rewrite H.
  apply refreshUser_rejected_anonymous.
Qed.

(** C9.  A page is loaded with a non-empty access token in storage.
    [initAuth] sends the profile request with that token and the page
    stays in the loading state.  When the profile call is fulfilled, the
    user becomes the payload of the response; only the profile request
    has been sent and storage is as it was.  When the profile call is
    rejected, on any of the paths through the 401 handler, the tokens
    are removed, the user is absent and loading is over.  These paths
    are: a rejection that the handler passes on (not a 401, or a 401
    with no refresh token stored); a 401 followed by a rejected refresh
    call; a 401, a successful refresh, and a rejected resend.  A
    fulfilled resend sets the user as well. *)
Theorem bootstrap_restores_or_clears
    (storage : gmap string string) (location token : string) :
  storage !! "access_token" = Some token → truthy (Some token) = true →
  let w0 := bootstrap storage location in
  wire w0 =
    [mkRequest ApiInstance
       (mkConfig GET "auth/user/profile/" NoBody (Some ("Bearer " ++ token))
                 false)] ∧
  isLoading w0 = true ∧
  (∀ s d, 200 ≤ s < 300 →
     let w1 := deliver 0 (Replied s d) w0 in
     user w1 = Some d ∧ (d ≠ EmptyData → isAuthenticated w1 = true) ∧
     isLoading w1 = false ∧ localStorage w1 = storage ∧ wire w1 = wire w0) ∧
  (∀ r e, axios_settle r = inr e →
     error_status e ≠ Some 401 ∨ truthy (storage !! "refresh_token") = false →
     anonymous (deliver 0 r w0)) ∧
  (∀ d refreshToken,
     storage !! "refresh_token" = Some refreshToken →
     truthy (Some refreshToken) = true →
     let w1 := deliver 0 (Replied 401 d) w0 in
     (∀ r e, axios_settle r = inr e → anonymous (deliver 1 r w1)) ∧
     (∀ s d', 200 ≤ s < 300 →
        let w2 := deliver 1 (Replied s d') w1 in
        (∀ r e, axios_settle r = inr e → anonymous (deliver 2 r w2)) ∧
        (∀ s' u, 200 ≤ s' < 300 →
           user (deliver 2 (Replied s' u) w2) = Some u))).
Proof.
  intros Htok Ht w0.
  set (cfg := mkConfig GET "auth/user/profile/" NoBody
                       (Some ("Bearer " ++ token)) false).
  assert (Hw0 : w0 = send (mkRequest ApiInstance cfg)
                      (mkPending cfg AwaitingReply (RefreshUserCaller true) 0)
                      (fresh storage location)).
  { unfold w0, bootstrap, initAuth, getItem. simpl. rewrite Htok, Ht.
    unfold refreshUser, authAPI_getProfile, api, request_interceptor, getItem.
    simpl. by rewrite Htok, Ht. }
  set (p0 := mkPending cfg AwaitingReply (RefreshUserCaller true) 0) in *.
  assert (Hp0 : pending w0 !! 0%nat = Some p0)
    by (rewrite Hw0; apply lookup_insert_eq).
  split; [by rewrite Hw0|]. split; [by rewrite Hw0|]. split; [|split].
  - intros s d H2xx w1. unfold w1.
    rewrite (deliver_fulfilled _ _ _ _ _ Hp0 eq_refl H2xx). rewrite Hw0. simpl.
    split; [done|]. split; [by destruct d|]. done.
  - intros r e He [H401|Hrt].
    + rewrite (deliver_other_rejection _ _ e _ p0) by done.
      apply refreshUser_rejected_anonymous.
    + destruct (decide (error_status e = Some 401)) as [H401|H401].
      * assert (∃ d, r = Replied 401 d) as [d ->].
        { destruct r as [s d|]; simpl in He; [|by injection He as <-].
          destruct ((200 <=? s) && (s <? 300)); [done|].
          injection He as <-. simpl in H401. injection H401 as ->. eauto. }
        rewrite (deliver_401_no_refresh_token _ _ _ p0);
          [by apply refresh_failed_anonymous | done | done | done |].
        rewrite Hw0. exact Hrt.
      * rewrite (deliver_other_rejection _ _ e _ p0) by done.
        apply refreshUser_rejected_anonymous.
  - intros d refreshToken Hrt Hrtt w1.
    set (p1 := mkPending (set_retry cfg) AwaitingRefresh (RefreshUserCaller true) 0).
    assert (Hw1 : w1 = send (refresh_request refreshToken) p1 (resume 0 w0)).
    { apply (deliver_401_refreshes 0 d w0 p0); try done.
      rewrite Hw0. exact Hrt. }
    assert (Hp1 : pending w1 !! 1%nat = Some p1).
    { rewrite Hw1, Hw0. apply lookup_insert_eq. }
    split.
    + intros r e He. rewrite (deliver_refresh_rejected _ _ e _ p1) by done.
      by apply refresh_failed_anonymous.
    + intros s d' H2xx w2.
      set (c2 := set_Authorization
                   ("Bearer " ++ js_string (data_access d')) (set_retry cfg)).
      set (p2 := mkPending c2 AwaitingReply (RefreshUserCaller true) 0).
      assert (Hp2 : pending w2 !! 2%nat = Some p2).
      { unfold w2. rewrite (deliver_refresh_fulfilled _ _ _ _ p1) by done.
        rewrite Hw1, Hw0. apply lookup_insert_eq. }
      split.
      * intros r e He. rewrite (deliver_marked _ _ _ p2) by done.
        rewrite He. apply refreshUser_rejected_anonymous.
      * intros s' u H2xx'.
        rewrite (deliver_fulfilled _ _ _ _ _ Hp2 eq_refl H2xx'). done.
Qed.

Lemma bootstrap_restores_or_clears_witness :
  stored_tokens !! "access_token" = Some "A1" ∧ truthy (Some "A1") = true ∧
  200 ≤ 200 < 300 ∧
  axios_settle NoReply = inr (AxiosError None) ∧
  user (deliver 0 (Replied 200 (ProfileData amina))
                (bootstrap stored_tokens "/dashboard"))
  = Some (ProfileData amina) ∧
  anonymous (deliver 0 NoReply (bootstrap stored_tokens "/dashboard")).
Proof.
  destruct (bootstrap_restores_or_clears stored_tokens "/dashboard" "A1"
              eq_refl eq_refl) as (_ & _ & Hok & Hfail & _).
  do 2 (split; [reflexivity|]). split; [lia|]. split; [reflexivity|]. split.
  - apply (Hok 200 (ProfileData amina)). lia.
  - apply (Hfail NoReply (AxiosError None) eq_refl). by left.
Defined.

(** ** The refresh call itself *)

Lemma continue_rejected_refresh_calls k o e w :
  refresh_calls (wire (continue k o (inr e) w)) = refresh_calls (wire w).
Proof.
  unfold refresh_calls.
  destruct k as [| |h|i|]; simpl; try done.
  - by destruct h.
  - destruct i; simpl; rewrite ?count_app; simpl; lia.
Qed.

Lemma continue_rejected_no_tokens k o e w :
  no_tokens w → no_tokens (continue k o (inr e) w).
Proof.
  intros H. destruct k as [| |h|i|]; simpl; try done.
  - by destruct h.
  - destruct i; simpl.
    + apply (removeItem_tokens
               (console_error "Failed to refresh user:" e
                  (logout (console_error "Failed to refresh user:" e w)))).
    + apply (removeItem_tokens (console_error "Failed to refresh user:" e w)).
Qed.

(** C10.  The refresh request that the 401 handler sends goes out on
    the bare axios client: it is no request of [api], and it carries no
    Authorization header, whatever access token is stored.  A 401 in
    reply to it runs the catch clause of the handler at once: no further
    refresh request is sent, the tokens are removed and the browser is
    sent to /login. *)
Theorem refresh_call_bypasses_interceptors
    (w : Browser) (k : nat) (p : Pending) (d : Data) (refreshToken : string) :
  pending w !! k = Some p → stage p = AwaitingReply →
  _retry (originalRequest p) = false →
  getItem "refresh_token" w = Some refreshToken →
  truthy (Some refreshToken) = true →
  let n := length (wire w) in
  let w1 := deliver k (Replied 401 d) w in
  wire w1 =
    (wire w ++
     [mkRequest BareAxios
        (mkConfig POST refresh_url (RefreshBody refreshToken) None false)])%list ∧
  ∀ d',
    let w2 := deliver n (Replied 401 d') w1 in
    w2 = refresh_failed (AxiosError (Some (401, d')))
           (mkPending (set_retry (originalRequest p)) AwaitingRefresh
                      (caller p) (origin p))
           (resume n w1) ∧
    refresh_calls (wire w2) = refresh_calls (wire w1) ∧
    no_tokens w2 ∧
    (caller p = ResourceCaller →
     wire w2 = wire w1 ∧ href w2 = "/login" ∧
     settled w2 !! origin p = Some (Rejected (AxiosError (Some (401, d'))))).
Proof.
  intros Hp Hs Hr Hrt Ht n w1.
  assert (Hw1 : w1 = send (refresh_request refreshToken)
                       (mkPending (set_retry (originalRequest p))
                                  AwaitingRefresh (caller p) (origin p))
                       (resume k w))
    by (by apply deliver_401_refreshes).
  split; [by rewrite Hw1|].
  intros d' w2.
  assert (Hw2 : w2 = refresh_failed (AxiosError (Some (401, d')))
           (mkPending (set_retry (originalRequest p)) AwaitingRefresh
                      (caller p) (origin p))
           (resume n w1)).
  { apply deliver_refresh_rejected; [|done|done].
    rewrite Hw1. apply lookup_insert_eq. }
  split; [exact Hw2|]. rewrite Hw2. unfold refresh_failed.
  split; [by rewrite continue_rejected_refresh_calls|].
  split; [apply continue_rejected_no_tokens, (removeItem_tokens (resume n w1))|].
  simpl. intros ->. simpl. split; [done|]. split; [done|].
  apply lookup_insert_eq.
Qed.

Lemma refresh_call_bypasses_interceptors_witness :
  let w := api (get "projects/") ResourceCaller None signed_in in
  let p := mkPending (mkConfig GET "projects/" NoBody (Some "Bearer A1") false)
                     AwaitingReply ResourceCaller 0 in
  pending w !! 0%nat = Some p ∧ stage p = AwaitingReply ∧
  _retry (originalRequest p) = false ∧
  getItem "refresh_token" w = Some "R1" ∧ truthy (Some "R1") = true ∧
  caller p = ResourceCaller ∧
  wire (deliver 0 (Replied 401 expired) w) =
    (wire w ++
     [mkRequest BareAxios
        (mkConfig POST refresh_url (RefreshBody "R1") None false)])%list ∧
  wire (deliver 1 (Replied 401 expired) (deliver 0 (Replied 401 expired) w))
  = wire (deliver 0 (Replied 401 expired) w).
Proof.
  intros w p.
  do 6 (split; [reflexivity|]).
  destruct (refresh_call_bypasses_interceptors w 0 p expired "R1"
              eq_refl eq_refl eq_refl eq_refl eq_refl) as [Hsent Hreply].
  split; [exact Hsent|].
  destruct (Hreply expired) as (_ & _ & _ & Hresource).
  apply (Hresource eq_refl).
Defined.

(** * More properties of the session code *)

(** ** Sign-in that succeeds *)

Lemma deliver_login_fulfilled w email password s response :
  200 ≤ s < 300 →
  deliver (length (wire w)) (Replied s response) (login email password w) =
    login_fulfilled response (length (wire w))
                    (resume (length (wire w)) (login email password w)).
Proof.
  intros H2xx.
  set (p := mkPending
              (request_interceptor (post "auth/token/" (LoginBody email password))
                                   (setIsLoading true w))
              AwaitingReply LoginCaller (length (wire w))).
  assert (Hp : pending (login email password w) !! length (wire w) = Some p)
    by apply lookup_insert_eq.
  by rewrite (deliver_fulfilled _ _ _ _ _ Hp eq_refl H2xx).
Qed.

(** X1.  When the token endpoint answers the login request with a 2xx,
    [login] stores the access and the refresh token of the response
    (the string "undefined" for one that the response lacks), sets the
    user to the [user] of the response, ends loading and resolves to
    [success: true]; it sends nothing else. *)
Theorem successful_login_stores_session
    (w : Browser) (email password : string) (s : Z) (response : Data) :
  200 ≤ s < 300 →
  let n := length (wire w) in
  let w1 := login email password w in
  let w2 := deliver n (Replied s response) w1 in
  wire w1 =
    (wire w ++
     [mkRequest ApiInstance
        (request_interceptor (post "auth/token/" (LoginBody email password)) w)])%list ∧
  getItem "access_token" w2 = Some (js_string (data_access response)) ∧
  getItem "refresh_token" w2 = Some (js_string (data_refresh response)) ∧
  user w2 = data_user response ∧ isLoading w2 = false ∧
  settled w2 !! n = Some (AuthResult true None) ∧
  wire w2 = wire w1.
Proof.
  intros H2xx n w1 w2.
  split; [done|].
  unfold w2, w1, n. rewrite (deliver_login_fulfilled _ _ _ _ _ H2xx).
  unfold getItem. simpl.
  split; [by rewrite lookup_insert_ne, lookup_insert_eq|].
  split; [by rewrite lookup_insert_eq|].
  split; [done|]. split; [done|]. split; [apply lookup_insert_eq | done].
Qed.

Lemma successful_login_stores_session_witness :
  200 ≤ 200 < 300 ∧
  getItem "refresh_token"
    (deliver 0 (Replied 200 (TokenData (Some "A2") (Some "R2") (Some amina)))
             (login "amina@example.com" "secret1234" signed_out))
  = Some "R2".
Proof.
  split; [lia|].
  apply (successful_login_stores_session signed_out "amina@example.com"
           "secret1234" 200 (TokenData (Some "A2") (Some "R2") (Some amina))).
  lia.
Defined.

(** X2.  After a login that returned a non-empty access token, a page
    loaded with the storage that the login left sends the profile
    request with that token, and a 2xx reply to it sets the user: the
    session comes back without credentials. *)
Theorem login_then_reload_restores_session
    (w : Browser) (email password location access : string) (s s' : Z)
    (refresh : option string) (u : option User) (profile : Data) :
  200 ≤ s < 300 → 200 ≤ s' < 300 → truthy (Some access) = true →
  let logged_in :=
    deliver (length (wire w)) (Replied s (TokenData (Some access) refresh u))
            (login email password w) in
  let reloaded := bootstrap (localStorage logged_in) location in
  wire reloaded =
    [mkRequest ApiInstance
       (mkConfig GET "auth/user/profile/" NoBody (Some ("Bearer " ++ access))
                 false)] ∧
  user reloaded = None ∧
  user (deliver 0 (Replied s' profile) reloaded) = Some profile.
Proof.
  intros H2xx H2xx' Ht logged_in reloaded.
  assert (Hacc : localStorage logged_in !! "access_token" = Some access).
  { unfold logged_in. rewrite (deliver_login_fulfilled _ _ _ _ _ H2xx).
    simpl. by rewrite lookup_insert_ne, lookup_insert_eq. }
  assert (Hre : reloaded =
            send (mkRequest ApiInstance
                    (mkConfig GET "auth/user/profile/" NoBody
                              (Some ("Bearer " ++ access)) false))
                 (mkPending
                    (mkConfig GET "auth/user/profile/" NoBody
                              (Some ("Bearer " ++ access)) false)
                    AwaitingReply (RefreshUserCaller true) 0)
                 (fresh (localStorage logged_in) location)).
  { unfold reloaded, bootstrap, initAuth, getItem. simpl. rewrite Hacc, Ht.
    unfold refreshUser, authAPI_getProfile, api, request_interceptor, getItem.
    simpl. by rewrite Hacc, Ht. }
  split; [by rewrite Hre|]. split; [by rewrite Hre|].
  erewrite deliver_fulfilled;
    [ | rewrite Hre; apply lookup_insert_eq | reflexivity | exact H2xx'].
  reflexivity.
Qed.

Lemma login_then_reload_restores_session_witness :
  200 ≤ 200 < 300 ∧ truthy (Some "A2") = true ∧
  user (deliver 0 (Replied 200 (ProfileData amina))
          (bootstrap
             (localStorage
                (deliver 0
                   (Replied 200 (TokenData (Some "A2") (Some "R2") None))
                   (login "amina@example.com" "secret1234" signed_out)))
             "/dashboard"))
  = Some (ProfileData amina).
Proof.
  split; [lia|]. split; [reflexivity|].
  apply (login_then_reload_restores_session signed_out "amina@example.com"
           "secret1234" "/dashboard" "A2" 200 200 (Some "R2") None
           (ProfileData amina)); [lia | lia | reflexivity].
Defined.

(** ** Logout, again *)

(** X3.  A second [logout] right after the first leaves storage, the
    user and the location as the first left them, and posts one more
    logout notification, again without an Authorization header. *)
Theorem logout_twice (w : Browser) :
  let w1 := logout w in
  let w2 := logout w1 in
  localStorage w2 = localStorage w1 ∧ user w2 = user w1 ∧ href w2 = href w1 ∧
  settled w2 = settled w1 ∧
  wire w2 =
    (wire w ++ [mkRequest ApiInstance (post "auth/logout/" NoBody);
                mkRequest ApiInstance (post "auth/logout/" NoBody)])%list.
Proof.
  intros w1 w2.
  assert (Hno : no_tokens w1) by apply logout_no_tokens.
  assert (Hls : localStorage w2 = localStorage w1).
  { destruct Hno as [Ha Hr]. unfold getItem in *.
    change (localStorage w2)
      with (delete "refresh_token" (delete "access_token" (localStorage w1))).
    rewrite (delete_id _ "access_token") by done. by apply delete_id. }
  split; [exact Hls|]. split; [done|]. split; [done|]. split; [done|].
  assert (Hw1 : wire w1 =
            (wire w ++ [mkRequest ApiInstance (post "auth/logout/" NoBody)])%list).
  { unfold w1, logout, authAPI_logout, api.
    rewrite request_interceptor_no_token; [done|].
    apply (removeItem_tokens w). }
  assert (Hw2 : wire w2 =
            (wire w1 ++ [mkRequest ApiInstance (post "auth/logout/" NoBody)])%list).
  { unfold w2, logout, authAPI_logout, api.
    rewrite request_interceptor_no_token; [done|].
    apply (removeItem_tokens w1). }
  by rewrite Hw2, Hw1, <- app_assoc.
Qed.

(** ** What the response interceptor leaves alone *)

(** X4.  For a resource call, a reply that is not a 401 goes to the
    caller as it is, fulfilled or rejected: the interceptor writes
    nothing to storage, keeps the user and the location, and sends
    nothing. *)
Theorem other_replies_pass_through
    (w : Browser) (k : nat) (p : Pending) (r : Reply) :
  pending w !! k = Some p → stage p = AwaitingReply →
  caller p = ResourceCaller →
  (∀ d, r ≠ Replied 401 d) →
  let w' := deliver k r w in
  settled w' !! origin p = Some (outcome r) ∧
  localStorage w' = localStorage w ∧ user w' = user w ∧ href w' = href w ∧
  wire w' = wire w ∧ pending w' = delete k (pending w).
Proof.
  intros Hp Hs Hc Hr w'. unfold w', outcome.
  rewrite (deliver_pending _ _ _ _ Hp), Hs.
  destruct (axios_settle r) as [d|e] eqn:He.
  - rewrite Hc. simpl. split; [apply lookup_insert_eq | done].
  - assert (H401 : error_status e ≠ Some 401).
    { destruct r as [s d|]; simpl in He.
      - destruct ((200 <=? s) && (s <? 300)); [done|]. injection He as <-.
        simpl. intros [= ->]. by apply (Hr d).
      - by injection He as <-. }
    unfold response_rejected. rewrite (bool_decide_eq_false_2 _ H401).
    simpl. rewrite Hc. simpl. split; [apply lookup_insert_eq | done].
Qed.

Lemma other_replies_pass_through_witness :
  let w := api (get "projects/") ResourceCaller None signed_in in
  let p := mkPending (mkConfig GET "projects/" NoBody (Some "Bearer A1") false)
                     AwaitingReply ResourceCaller 0 in
  pending w !! 0%nat = Some p ∧ stage p = AwaitingReply ∧
  caller p = ResourceCaller ∧ (∀ d, Replied 500 EmptyData ≠ Replied 401 d) ∧
  localStorage (deliver 0 (Replied 500 EmptyData) w) = localStorage w.
Proof.
  intros w p.
  assert (H : ∀ d, Replied 500 EmptyData ≠ Replied 401 d) by (intros d; discriminate).
  do 3 (split; [reflexivity|]). split; [exact H|].
  apply (other_replies_pass_through w 0 p (Replied 500 EmptyData)
           eq_refl eq_refl eq_refl H).
Defined.

(** ** Messages of a rejected sign-in *)

(** X5.  With no refresh token in storage, a 401 in reply to the login
    request never shows what the server said.  The 401 handler takes the
    reply first, finds no refresh token and rejects with its own error,
    which has no response; [login] then falls back to its fixed
    message.  The handler also removes the stored tokens and sends the
    browser to /login. *)
Theorem login_401_hides_server_message
    (w : Browser) (email password : string) (d : Data) :
  truthy (getItem "refresh_token" w) = false →
  let n := length (wire w) in
  let w2 := deliver n (Replied 401 d) (login email password w) in
  settled w2 !! n =
    Some (AuthResult false
            (Some "Login failed. Please check your credentials.")) ∧
  href w2 = "/login" ∧ no_tokens w2 ∧
  wire w2 = wire (login email password w).
Proof.
  intros Hrt n w2.
  set (p := mkPending
              (request_interceptor (post "auth/token/" (LoginBody email password))
                                   (setIsLoading true w))
              AwaitingReply LoginCaller n).
  assert (Hp : pending (login email password w) !! n = Some p)
    by apply lookup_insert_eq.
  unfold w2.
  rewrite (deliver_401_no_refresh_token _ _ _ p Hp eq_refl
             (request_interceptor_retry _ _) Hrt).
  unfold refresh_failed. simpl.
  split; [apply lookup_insert_eq|]. split; [done|]. split; [|done].
  apply (removeItem_tokens (resume n (login email password w))).
Qed.

Lemma login_401_hides_server_message_witness :
  truthy (getItem "refresh_token" signed_out) = false ∧
  settled (deliver 0 (Replied 401 wrong_password)
                   (login "amina@example.com" "wrong" signed_out)) !! 0%nat
  = Some (AuthResult false
            (Some "Login failed. Please check your credentials.")).
Proof.
  split; [reflexivity|].
  apply (login_401_hides_server_message signed_out "amina@example.com" "wrong"
           wrong_password eq_refl).
Defined.

Lemma deliver_login_rejected w email password s d :
  ¬ (200 ≤ s < 300) → s ≠ 401 →
  deliver (length (wire w)) (Replied s d) (login email password w) =
    login_rejected (AxiosError (Some (s, d))) (length (wire w))
                   (resume (length (wire w)) (login email password w)).
Proof.
  intros Hs H401.
  set (p := mkPending
              (request_interceptor (post "auth/token/" (LoginBody email password))
                                   (setIsLoading true w))
              AwaitingReply LoginCaller (length (wire w))).
  assert (Hp : pending (login email password w) !! length (wire w) = Some p)
    by apply lookup_insert_eq.
  assert (He : axios_settle (Replied s d) = inr (AxiosError (Some (s, d)))).
  { simpl. destruct ((200 <=? s) && (s <? 300)) eqn:E; [|done].
    apply andb_true_iff in E as [E1 E2].
    apply Z.leb_le in E1. apply Z.ltb_lt in E2. lia. }
  rewrite (deliver_other_rejection _ _ _ _ p Hp eq_refl He); [done|].
  simpl. intros [= ->]. done.
Qed.

(** X6.  The message of a login that is rejected with a status other
    than 2xx and 401.  The first entry of a [non_field_errors] array
    comes first; when [non_field_errors] is a string, only its first
    character is shown; otherwise [detail] is shown; when neither is
    there, the fixed message. *)
Theorem login_rejection_message
    (w : Browser) (email password : string) (s : Z)
    (e p nfe : option FieldError) (detail : option string) :
  ¬ (200 ≤ s < 300) → s ≠ 401 →
  let n := length (wire w) in
  let shown :=
    settled (deliver n (Replied s (ErrorData e p nfe detail))
                     (login email password w)) !! n in
  (∀ m rest, nfe = Some (Many (m :: rest)) → truthy (Some m) = true →
     shown = Some (AuthResult false (Some m))) ∧
  (∀ c rest, nfe = Some (One (String c rest)) →
     shown = Some (AuthResult false (Some (String c EmptyString)))) ∧
  (∀ t, truthy (index0 nfe) = false → detail = Some t →
     truthy (Some t) = true →
     shown = Some (AuthResult false (Some t))) ∧
  (truthy (index0 nfe) = false → truthy detail = false →
     shown = Some (AuthResult false
                     (Some "Login failed. Please check your credentials."))).
Proof.
  intros Hs H401 n shown. unfold shown, n.
  rewrite (deliver_login_rejected w email password s _ Hs H401).
  unfold login_rejected. simpl. rewrite lookup_insert_eq.
  repeat split.
  - intros m rest -> Hm. by destruct m.
  - intros c rest ->. reflexivity.
  - intros t Hn -> Ht. unfold js_or at 2. rewrite Hn. by destruct t.
  - intros Hn Hd. unfold js_or at 2. rewrite Hn. unfold js_or. by rewrite Hd.
Qed.

Lemma login_rejection_message_witness :
  ¬ (200 ≤ 400 < 300) ∧ 400 ≠ 401 ∧
  settled (deliver 0
             (Replied 400 (ErrorData None None
                             (Some (One "Unable to log in")) None))
             (login "amina@example.com" "wrong" signed_out)) !! 0%nat
  = Some (AuthResult false (Some "U")).
Proof.
  assert (H1 : ¬ (200 ≤ 400 < 300)) by lia.
  assert (H2 : 400 ≠ 401) by lia.
  split; [exact H1|]. split; [exact H2|].
  destruct (login_rejection_message signed_out "amina@example.com" "wrong" 400
              None None (Some (One "Unable to log in")) None H1 H2)
    as (_ & Hstring & _).
  exact (Hstring _ _ eq_refl).
Defined.

(** ** Registration *)

(** The registration request for the values of a form *)
Lemma handleSubmit_valid w :
  form_password (formData (page w)) = form_confirmPassword (formData (page w)) →
  (8 ≤ String.length (form_password (formData (page w))))%nat →
  handleSubmit w =
    register (form_email (formData (page w)))
             (form_password (formData (page w)))
             (form_first_name (formData (page w)))
             (form_last_name (formData (page w)))
             (Some (form_phone_number (formData (page w)))) true
             (page_setError "" (page_setIsLoading true w)).
Proof.
  intros Heq Hlen. unfold handleSubmit. simpl.
  rewrite <- Heq, String.eqb_refl. simpl.
  apply Nat.ltb_ge in Hlen. by rewrite Hlen.
Qed.

(** X7.  When the two passwords of the form are equal and have at
    least eight characters, [handleSubmit] sends one request, the
    registration, whose [password_confirm] repeats the password; the
    typed confirmation is not sent on its own.  Storage and the user
    are untouched while the request is in flight, and the page and the
    provider are loading. *)
Theorem valid_submit_sends_one_registration (w : Browser) :
  let f := formData (page w) in
  form_password f = form_confirmPassword f →
  (8 ≤ String.length (form_password f))%nat →
  let w' := handleSubmit w in
  wire w' =
    (wire w ++
     [mkRequest ApiInstance
        (request_interceptor
           (post "auth/user/register/"
                 (RegisterBody (form_email f) (form_password f)
                               (form_first_name f) (form_last_name f)
                               (Some (form_phone_number f)) (form_password f)))
           w)])%list ∧
  localStorage w' = localStorage w ∧ user w' = user w ∧
  isLoading w' = true ∧ page_isLoading (page w') = true ∧
  error (page w') = "".
Proof.
  intros f Heq Hlen w'. unfold w'. rewrite (handleSubmit_valid w Heq Hlen).
  repeat split.
Qed.

Lemma valid_submit_sends_one_registration_witness :
  form_password (formData (page valid_page))
  = form_confirmPassword (formData (page valid_page)) ∧
  (8 ≤ String.length (form_password (formData (page valid_page))))%nat ∧
  wire (handleSubmit valid_page) =
    [mkRequest ApiInstance
       (post "auth/user/register/"
             (RegisterBody "amina@example.com" "secret1234" "Amina" "Diallo"
                           (Some "+221700000000") "secret1234"))].
Proof.
  assert (H : (8 ≤ String.length
                     (form_password (formData (page valid_page))))%nat)
    by (simpl; lia).
  split; [reflexivity|]. split; [exact H|].
  apply (valid_submit_sends_one_registration valid_page eq_refl H).
Defined.

Lemma handleSubmit_pending w :
  form_password (formData (page w)) = form_confirmPassword (formData (page w)) →
  (8 ≤ String.length (form_password (formData (page w))))%nat →
  ∃ c, pending (handleSubmit w) !! length (wire w) =
         Some (mkPending c AwaitingReply (RegisterCaller true) (length (wire w)))
       ∧ _retry c = false.
Proof.
  intros Heq Hlen. rewrite (handleSubmit_valid w Heq Hlen).
  eexists. split; [apply lookup_insert_eq|]. apply request_interceptor_retry.
Qed.

(** X8.  When the registration is answered with a 2xx, both tokens of
    the response are stored, the user is set, [register] resolves to
    [success: true], and the page goes to /dashboard and stops
    loading. *)
Theorem successful_registration_signs_in
    (w : Browser) (s : Z) (response : Data) :
  let f := formData (page w) in
  form_password f = form_confirmPassword f →
  (8 ≤ String.length (form_password f))%nat →
  200 ≤ s < 300 →
  let n := length (wire w) in
  let w2 := deliver n (Replied s response) (handleSubmit w) in
  getItem "access_token" w2 = Some (js_string (data_access response)) ∧
  getItem "refresh_token" w2 = Some (js_string (data_refresh response)) ∧
  user w2 = data_user response ∧
  settled w2 !! n = Some (AuthResult true None) ∧
  navigated (page w2) = Some "/dashboard" ∧
  page_isLoading (page w2) = false ∧ isLoading w2 = false ∧
  wire w2 = wire (handleSubmit w).
Proof.
  intros f Heq Hlen H2xx n w2.
  destruct (handleSubmit_pending w Heq Hlen) as (c & Hp & _).
  unfold w2, n. rewrite (deliver_fulfilled _ _ _ _ _ Hp eq_refl H2xx).
  unfold getItem. simpl.
  split; [by rewrite lookup_insert_ne, lookup_insert_eq|].
  split; [by rewrite lookup_insert_eq|].
  split; [done|]. split; [apply lookup_insert_eq | done].
Qed.

Lemma successful_registration_signs_in_witness :
  form_password (formData (page valid_page))
  = form_confirmPassword (formData (page valid_page)) ∧
  (8 ≤ String.length (form_password (formData (page valid_page))))%nat ∧
  200 ≤ 201 < 300 ∧
  navigated
    (page (deliver 0 (Replied 201 (TokenData (Some "A1") (Some "R1") (Some amina)))
                   (handleSubmit valid_page)))
  = Some "/dashboard".
Proof.
  assert (H : (8 ≤ String.length
                     (form_password (formData (page valid_page))))%nat)
    by (simpl; lia).
  split; [reflexivity|]. split; [exact H|]. split; [lia|].
  apply (successful_registration_signs_in valid_page 201
           (TokenData (Some "A1") (Some "R1") (Some amina)) eq_refl H).
  lia.
Defined.

Lemma deliver_register_rejected w r e :
  form_password (formData (page w)) = form_confirmPassword (formData (page w)) →
  (8 ≤ String.length (form_password (formData (page w))))%nat →
  axios_settle r = inr e → error_status e ≠ Some 401 →
  deliver (length (wire w)) r (handleSubmit w) =
    register_rejected e true (length (wire w))
                      (resume (length (wire w)) (handleSubmit w)).
Proof.
  intros Heq Hlen He H401.
  destruct (handleSubmit_pending w Heq Hlen) as (c & Hp & _).
  by rewrite (deliver_other_rejection _ _ e _ _ Hp eq_refl He H401).
Qed.

(** X9.  What the registration page shows when the registration is
    rejected with a status other than 2xx and 401.  The first message of
    the [email] errors wins over every other field; an empty [email]
    array leaves no message and the page falls back to "Registration
    failed"; with no field errors the [detail] is shown; with no
    response at all, the fixed message of [register].  In each case
    nothing is stored, the user is unchanged and the page stays where it
    is. *)
Theorem registration_rejection_message (w : Browser) (s : Z)
    (p nfe : option FieldError) (detail : option string) :
  let f := formData (page w) in
  form_password f = form_confirmPassword f →
  (8 ≤ String.length (form_password f))%nat →
  ¬ (200 ≤ s < 300) → s ≠ 401 →
  let n := length (wire w) in
  let after r := deliver n r (handleSubmit w) in
  (∀ m rest, truthy (Some m) = true →
     error (page (after (Replied s (ErrorData (Some (Many (m :: rest)))
                                              p nfe detail)))) = m) ∧
  error (page (after (Replied s (ErrorData (Some (Many [])) p nfe detail))))
    = "Registration failed" ∧
  (∀ t, truthy (Some t) = true →
     error (page (after (Replied s (ErrorData None None None (Some t))))) = t) ∧
  error (page (after NoReply)) = "Registration failed. Please try again." ∧
  (∀ r e, axios_settle r = inr e → error_status e ≠ Some 401 →
     localStorage (after r) = localStorage w ∧ user (after r) = user w ∧
     navigated (page (after r)) = navigated (page w) ∧
     page_isLoading (page (after r)) = false ∧
     wire (after r) = wire (handleSubmit w)).
Proof.
  intros f Heq Hlen Hs H401 n after.
  assert (Hrej : ∀ d, axios_settle (Replied s d)
                      = inr (AxiosError (Some (s, d)))).
  { intros d. simpl. destruct ((200 <=? s) && (s <? 300)) eqn:E; [|done].
    apply andb_true_iff in E as [E1 E2].
    apply Z.leb_le in E1. apply Z.ltb_lt in E2. lia. }
  assert (Hst : ∀ d, error_status (AxiosError (Some (s, d))) ≠ Some 401).
  { intros d [= ->]. done. }
  split; [|split; [|split; [|split]]].
  - intros m rest Hm. unfold after, n.
    rewrite (deliver_register_rejected w _ _ Heq Hlen (Hrej _) (Hst _)).
    by destruct m.
  - unfold after, n.
    by rewrite (deliver_register_rejected w _ _ Heq Hlen (Hrej _) (Hst _)).
  - intros t Ht. unfold after, n.
    rewrite (deliver_register_rejected w _ _ Heq Hlen (Hrej _) (Hst _)).
    by destruct t.
  - unfold after, n.
    by rewrite (deliver_register_rejected w NoReply (AxiosError None)
                  Heq Hlen eq_refl).
  - intros r e He He401. unfold after, n.
    rewrite (deliver_register_rejected w r e Heq Hlen He He401).
    rewrite (handleSubmit_valid w Heq Hlen).
    unfold register_rejected, register_return, handleSubmit_resume. simpl.
    done.
Qed.

Lemma registration_rejection_message_witness :
  form_password (formData (page valid_page))
  = form_confirmPassword (formData (page valid_page)) ∧
  (8 ≤ String.length (form_password (formData (page valid_page))))%nat ∧
  ¬ (200 ≤ 400 < 300) ∧ 400 ≠ 401 ∧
  truthy (Some "user with this email already exists.") = true ∧
  error
    (page (deliver 0
             (Replied 400
                (ErrorData (Some (Many ["user with this email already exists."]))
                           (Some (One "This password is too common."))
                           None None))
             (handleSubmit valid_page)))
  = "user with this email already exists.".
Proof.
  assert (H : (8 ≤ String.length
                     (form_password (formData (page valid_page))))%nat)
    by (simpl; lia).
  assert (H1 : ¬ (200 ≤ 400 < 300)) by lia.
  assert (H2 : 400 ≠ 401) by lia.
  split; [reflexivity|]. split; [exact H|]. split; [exact H1|].
  split; [exact H2|]. split; [reflexivity|].
  destruct (registration_rejection_message valid_page 400
              (Some (One "This password is too common.")) None None
              eq_refl H H1 H2) as (Hemail & _).
  apply (Hemail "user with this email already exists." [] eq_refl).
Defined.

(** ** The registration form *)

Lemma isFormValid_passwords f :
  isFormValid f = true → form_password f = form_confirmPassword f.
Proof.
  unfold isFormValid. intros H.
  apply andb_true_iff in H as [_ H]. by apply String.eqb_eq.
Qed.

(** X10.  When the submit button of the registration form is enabled,
    the two passwords are equal, so a submit never reports "Passwords do
    not match": the only local rejection left is the password length,
    which the button does not check.  A password under eight characters
    is reported and nothing is sent; otherwise one request goes out. *)
Theorem enabled_submit_checks_only_length (w : Browser) :
  isFormValid (formData (page w)) = true →
  page_isLoading (page w) = false →
  let f := formData (page w) in
  let w' := submit w in
  error (page w') ≠ "Passwords do not match" ∧
  ((String.length (form_password f) < 8)%nat →
     error (page w') = "Password must be at least 8 characters long" ∧
     wire w' = wire w ∧ page_isLoading (page w') = false) ∧
  ((8 ≤ String.length (form_password f))%nat →
     length (wire w') = S (length (wire w)) ∧ error (page w') = "").
Proof.
  intros Hv Hl f w'. subst f.
  assert (Heq := isFormValid_passwords _ Hv).
  assert (Hw' : w' = handleSubmit w).
  { unfold w', submit. by rewrite Hv, Hl. }
  rewrite Hw'.
  destruct (Nat.ltb_spec
              (String.length (form_password (formData (page w)))) 8)
    as [Hlt|Hge].
  - assert (Hs : handleSubmit w =
              page_setIsLoading false
                (page_setError "Password must be at least 8 characters long"
                   (page_setError "" (page_setIsLoading true w)))).
    { unfold handleSubmit. simpl. rewrite <- Heq, String.eqb_refl.
      simpl. apply Nat.ltb_lt in Hlt. by rewrite Hlt. }
    rewrite Hs. simpl. split; [done|]. split; [done|]. lia.
  - rewrite (handleSubmit_valid w Heq Hge). simpl.
    split; [done|]. split; [lia|]. intros _. rewrite length_app. simpl.
    split; [lia | done].
Qed.

Lemma enabled_submit_checks_only_length_witness :
  isFormValid (formData (page short_password_page)) = true ∧
  page_isLoading (page short_password_page) = false ∧
  (String.length (form_password (formData (page short_password_page))) < 8)%nat ∧
  error (page (submit short_password_page))
  = "Password must be at least 8 characters long".
Proof.
  assert (H : (String.length
                 (form_password (formData (page short_password_page))) < 8)%nat)
    by (simpl; lia).
  do 2 (split; [reflexivity|]). split; [exact H|].
  destruct (enabled_submit_checks_only_length short_password_page
              eq_refl eq_refl) as (_ & Hshort & _).
  apply (Hshort H).
Defined.

Lemma truthy_length s : (0 < String.length s)%nat → truthy (Some s) = true.
Proof. destruct s; simpl; [lia | done]. Qed.

(** X11.  After the page has refused a short password, typing a
    password of eight characters or more in both password fields clears
    the message, enables the button again, and the next submit sends
    the registration with the new password. *)
Theorem corrected_password_is_sent (w : Browser) (typed : string) :
  isFormValid (formData (page w)) = true →
  page_isLoading (page w) = false →
  (String.length (form_password (formData (page w))) < 8)%nat →
  (8 ≤ String.length typed)%nat →
  let f := formData (page w) in
  let w1 := submit w in
  let w2 := handleChange "confirmPassword" typed
              (handleChange "password" typed w1) in
  error (page w2) = "" ∧ isFormValid (formData (page w2)) = true ∧
  wire (submit w2) =
    (wire w ++
     [mkRequest ApiInstance
        (request_interceptor
           (post "auth/user/register/"
                 (RegisterBody (form_email f) typed (form_first_name f)
                               (form_last_name f) (Some (form_phone_number f))
                               typed))
           w)])%list.
Proof.
  intros Hv Hl Hshort Hlong f w1 w2. subst f.
  assert (Heq := isFormValid_passwords _ Hv).
  assert (Hw1 : w1 =
            page_setIsLoading false
              (page_setError "Password must be at least 8 characters long"
                 (page_setError "" (page_setIsLoading true w)))).
  { unfold w1, submit. rewrite Hv, Hl. simpl.
    unfold handleSubmit. simpl. rewrite <- Heq, String.eqb_refl.
    simpl. apply Nat.ltb_lt in Hshort. by rewrite Hshort. }
  assert (Hf2 : formData (page w2) =
            mkFormData (form_email (formData (page w))) typed typed
                       (form_first_name (formData (page w)))
                       (form_last_name (formData (page w)))
                       (form_phone_number (formData (page w)))).
  { unfold w2. rewrite Hw1. reflexivity. }
  assert (He2 : error (page w2) = "").
  { unfold w2. rewrite Hw1. reflexivity. }
  assert (Hl2 : page_isLoading (page w2) = false).
  { unfold w2. rewrite Hw1. reflexivity. }
  assert (Hv2 : isFormValid (formData (page w2)) = true).
  { rewrite Hf2. unfold isFormValid in *.
    repeat (apply andb_true_iff in Hv as [Hv ?]).
    cbn [form_email form_password form_confirmPassword form_first_name
         form_last_name form_phone_number].
    rewrite String.eqb_refl, (truthy_length typed) by lia.
    repeat (apply andb_true_iff; split); done. }
  split; [exact He2|]. split; [exact Hv2|].
  unfold submit. rewrite Hv2, Hl2. simpl.
  rewrite handleSubmit_valid by (rewrite Hf2; simpl; done).
  rewrite Hf2. simpl.
  unfold w2. rewrite Hw1. reflexivity.
Qed.

Lemma corrected_password_is_sent_witness :
  isFormValid (formData (page short_password_page)) = true ∧
  page_isLoading (page short_password_page) = false ∧
  (String.length (form_password (formData (page short_password_page))) < 8)%nat ∧
  (8 ≤ String.length "secret1234")%nat ∧
  error (page (handleChange "confirmPassword" "secret1234"
                 (handleChange "password" "secret1234"
                    (submit short_password_page)))) = "".
Proof.
  assert (H : (String.length
                 (form_password (formData (page short_password_page))) < 8)%nat)
    by (simpl; lia).
  assert (H' : (8 ≤ String.length "secret1234")%nat) by (simpl; lia).
  do 2 (split; [reflexivity|]). split; [exact H|]. split; [exact H'|].
  apply (corrected_password_is_sent short_password_page "secret1234"
           eq_refl eq_refl H H').
Defined.

(** ** What a turn never does *)

(** X12.  Only the sign-in paths write a refresh token.  In a turn
    that resumes any other caller (a resource call, the profile fetch,
    the logout notification), in either stage of the 401 handler, the
    stored refresh token stays what it was or is removed; a successful
    refresh in particular never replaces it. *)
Theorem refresh_token_written_only_by_sign_in
    (w : Browser) (n : nat) (r : Reply) :
  (∀ p, pending w !! n = Some p →
     caller p ≠ LoginCaller ∧ ∀ h, caller p ≠ RegisterCaller h) →
  getItem "refresh_token" (deliver n r w) = getItem "refresh_token" w ∨
  getItem "refresh_token" (deliver n r w) = None.
Proof.
  intros H. unfold deliver.
  destruct (pending w !! n) as [[c st k o]|]; [|by left].
  destruct (H _ eq_refl) as [Hlogin Hregister]. simpl in *.
  assert (Hfail : ∀ e w0,
    getItem "refresh_token"
      (refresh_failed e (mkPending c st k o) w0) = None).
  { intros e w0. unfold refresh_failed, getItem.
    destruct k as [| |h|i|]; simpl;
      [ | done | by destruct (Hregister h) | destruct i | ];
      simpl; apply lookup_delete_eq. }
  destruct st, (axios_settle r) as [d|e].
  - left. destruct k as [| |h|i|]; simpl;
      [done | done | by destruct (Hregister h) | by destruct i | done].
  - unfold response_rejected. simpl.
    destruct (bool_decide _ && negb (_retry c)).
    + destruct (negb _); [right; apply Hfail | by left].
    + destruct k as [| |h|i|]; simpl;
        [by left | done | by destruct (Hregister h) | | by left].
      right. unfold getItem. destruct i; simpl; apply lookup_delete_eq.
  - left. unfold refresh_fulfilled, api, getItem. simpl.
    by rewrite lookup_insert_ne.
  - right. apply Hfail.
Qed.

Lemma refresh_token_written_only_by_sign_in_witness :
  let w := deliver 0 (Replied 401 expired)
             (api (get "projects/") ResourceCaller None signed_in) in
  (∀ p, pending w !! 1%nat = Some p →
     caller p ≠ LoginCaller ∧ ∀ h, caller p ≠ RegisterCaller h) ∧
  (getItem "refresh_token"
     (deliver 1 (Replied 200 (TokenData (Some "A2") (Some "R2") None)) w)
   = getItem "refresh_token" w ∨
   getItem "refresh_token"
     (deliver 1 (Replied 200 (TokenData (Some "A2") (Some "R2") None)) w)
   = None).
Proof.
  intros w.
  assert (H : ∀ p, pending w !! 1%nat = Some p →
     caller p ≠ LoginCaller ∧ ∀ h, caller p ≠ RegisterCaller h).
  { intros p Hp. vm_compute in Hp. injection Hp as <-. by split. }
  split; [exact H|].
  apply (refresh_token_written_only_by_sign_in w 1
           (Replied 200 (TokenData (Some "A2") (Some "R2") None)) H).
Defined.

(** X13.  The turns of a resource call and of the logout notification
    never touch the user held in memory or the loading flag of the
    provider, whatever the reply and whatever the stage of the 401
    handler. *)
Theorem api_turns_keep_the_user
    (w : Browser) (n : nat) (r : Reply) (p : Pending) :
  pending w !! n = Some p →
  caller p = ResourceCaller ∨ caller p = LogoutCaller →
  user (deliver n r w) = user w ∧ isLoading (deliver n r w) = isLoading w.
Proof.
  intros Hp Hc. rewrite (deliver_pending _ _ _ _ Hp).
  destruct p as [c st k o]. simpl in *.
  destruct st, (axios_settle r) as [d|e]; simpl;
    unfold response_rejected, refresh_failed, refresh_fulfilled; simpl;
    repeat match goal with
           | |- context [if ?b then _ else _] => destruct b
           end;
    destruct Hc as [-> | ->]; done.
Qed.

Lemma api_turns_keep_the_user_witness :
  let w := api (get "projects/") ResourceCaller None signed_in in
  let p := mkPending (mkConfig GET "projects/" NoBody (Some "Bearer A1") false)
                     AwaitingReply ResourceCaller 0 in
  pending w !! 0%nat = Some p ∧
  (caller p = ResourceCaller ∨ caller p = LogoutCaller) ∧
  user (deliver 0 (Replied 401 expired) w) = Some (ProfileData amina).
Proof.
  intros w p. split; [reflexivity|]. split; [by left|].
  apply (api_turns_keep_the_user w 0 (Replied 401 expired) p eq_refl
           (or_introl eq_refl)).
Defined.

(** ** Edges of the refresh *)

(** X14.  When the refresh call is answered with a 2xx whose body has
    no [access], the handler stores the string "undefined" as the access
    token and sends the original request again with "Bearer undefined";
    a page loaded afterwards takes that string for a token and sends its
    profile request with it. *)
Theorem refresh_without_access_stores_undefined
    (w : Browser) (k : nat) (p : Pending) (s : Z) (response : Data)
    (location : string) :
  pending w !! k = Some p → stage p = AwaitingRefresh → 200 ≤ s < 300 →
  data_access response = None →
  let w' := deliver k (Replied s response) w in
  getItem "access_token" w' = Some "undefined" ∧
  wire w' =
    (wire w ++
     [mkRequest ApiInstance
        (set_Authorization "Bearer undefined" (originalRequest p))])%list ∧
  wire (bootstrap (localStorage w') location) =
    [mkRequest ApiInstance
       (mkConfig GET "auth/user/profile/" NoBody (Some "Bearer undefined")
                 false)].
Proof.
  intros Hp Hs H2xx Hacc w'.
  assert (Hw' : w' =
    send (mkRequest ApiInstance
            (set_Authorization "Bearer undefined" (originalRequest p)))
         (mkPending (set_Authorization "Bearer undefined" (originalRequest p))
                    AwaitingReply (caller p) (origin p))
         (setItem "access_token" "undefined" (resume k w))).
  { unfold w'. rewrite (deliver_refresh_fulfilled _ _ _ _ _ Hp Hs H2xx).
    by rewrite Hacc. }
  assert (Hst : localStorage w' !! "access_token" = Some "undefined").
  { rewrite Hw'. simpl. apply lookup_insert_eq. }
  split; [exact Hst|]. split; [by rewrite Hw'|].
  unfold bootstrap, initAuth, getItem. simpl. rewrite Hst. simpl.
  unfold request_interceptor, getItem. simpl. by rewrite Hst.
Qed.

Lemma refresh_without_access_stores_undefined_witness :
  let w := deliver 0 (Replied 401 expired)
             (api (get "projects/") ResourceCaller None signed_in) in
  let p := mkPending (mkConfig GET "projects/" NoBody (Some "Bearer A1") true)
                     AwaitingRefresh ResourceCaller 0 in
  pending w !! 1%nat = Some p ∧ stage p = AwaitingRefresh ∧
  200 ≤ 200 < 300 ∧ data_access EmptyData = None ∧
  getItem "access_token" (deliver 1 (Replied 200 EmptyData) w)
  = Some "undefined".
Proof.
  intros w p. do 2 (split; [reflexivity|]). split; [lia|].
  split; [reflexivity|].
  apply (refresh_without_access_stores_undefined w 1 p 200 EmptyData "/").
  - reflexivity.
  - reflexivity.
  - lia.
  - reflexivity.
Defined.

(** X15.  [logout] does not stop a refresh that is in flight.  When
    the refresh reply arrives after [logout], the handler stores the new
    access token in the storage that [logout] had emptied, where no
    refresh token is left, and sends the original request again with
    that token. *)
Theorem refresh_after_logout_stores_token
    (w : Browser) (k : nat) (p : Pending) (s : Z) (response : Data) :
  pending w !! k = Some p → stage p = AwaitingRefresh →
  (k < length (wire w))%nat → 200 ≤ s < 300 →
  let w1 := logout w in
  let w2 := deliver k (Replied s response) w1 in
  cleared w1 ∧
  getItem "access_token" w2 = Some (js_string (data_access response)) ∧
  getItem "refresh_token" w2 = None ∧ user w2 = None ∧
  wire w2 =
    (wire w1 ++
     [mkRequest ApiInstance
        (set_Authorization ("Bearer " ++ js_string (data_access response))
                           (originalRequest p))])%list.
Proof.
  intros Hp Hs Hk H2xx w1 w2.
  assert (Hp1 : pending w1 !! k = Some p).
  { unfold w1, logout, authAPI_logout, api. simpl.
    rewrite lookup_insert_ne; [done|]. intros E. rewrite E in Hk. lia. }
  split; [split; [apply logout_no_tokens | done]|].
  unfold w2. rewrite (deliver_refresh_fulfilled _ _ _ _ _ Hp1 Hs H2xx).
  unfold getItem. simpl.
  split; [apply lookup_insert_eq|].
  split; [by rewrite lookup_insert_ne, lookup_delete_eq|]. done.
Qed.

Lemma refresh_after_logout_stores_token_witness :
  let w := deliver 0 (Replied 401 expired)
             (api (get "projects/") ResourceCaller None signed_in) in
  let p := mkPending (mkConfig GET "projects/" NoBody (Some "Bearer A1") true)
                     AwaitingRefresh ResourceCaller 0 in
  pending w !! 1%nat = Some p ∧ stage p = AwaitingRefresh ∧
  (1 < length (wire w))%nat ∧ 200 ≤ 200 < 300 ∧
  getItem "access_token"
    (deliver 1 (Replied 200 (TokenData (Some "A2") None None)) (logout w))
  = Some "A2".
Proof.
  intros w p.
  assert (H : (1 < length (wire w))%nat) by (vm_compute; lia).
  do 2 (split; [reflexivity|]). split; [exact H|]. split; [lia|].
  apply (refresh_after_logout_stores_token w 1 p 200
           (TokenData (Some "A2") None None) eq_refl eq_refl H).
  lia.
Defined.

(** ** A profile fetch that fails *)

(** X16.  When the profile request of the page start is rejected and
    the rejection reaches [refreshUser] (anything but a 401), [logout]
    runs twice, once in [refreshUser] and once in [initAuth]: two logout
    notifications are posted, both without an Authorization header, the
    error is logged twice, and the browser is sent to "/".  When
    [refreshUser] is called on its own, [logout] runs once and the error
    is thrown on to the caller. *)
Theorem failed_profile_fetch_logs_out
    (w : Browser) (from_initAuth : bool) (r : Reply) (e : JsError) :
  axios_settle r = inr e → error_status e ≠ Some 401 →
  let n := length (wire w) in
  let notification := mkRequest ApiInstance (post "auth/logout/" NoBody) in
  let w1 := refreshUser from_initAuth w in
  let w2 := deliver n r w1 in
  href w2 = "/" ∧ cleared w2 ∧
  (from_initAuth = true →
     wire w2 = (wire w1 ++ [notification; notification])%list ∧
     console w2 =
       (console w ++ [("Failed to refresh user:", e);
                      ("Failed to refresh user:", e)])%list ∧
     isLoading w2 = false) ∧
  (from_initAuth = false →
     wire w2 = (wire w1 ++ [notification])%list ∧
     console w2 = (console w ++ [("Failed to refresh user:", e)])%list ∧
     settled w2 !! n = Some (Rejected e)).
Proof.
  intros He H401 n notification w1 w2.
  set (p := mkPending (request_interceptor (get "auth/user/profile/") w)
                      AwaitingReply (RefreshUserCaller from_initAuth) n).
  assert (Hp : pending w1 !! n = Some p) by apply lookup_insert_eq.
  assert (Hw2 : w2 = refreshUser_rejected e from_initAuth n (resume n w1)).
  { unfold w2. by rewrite (deliver_other_rejection _ _ e _ p Hp eq_refl He). }
  assert (Hnotify : ∀ w0, wire (logout w0) = (wire w0 ++ [notification])%list).
  { intros w0. unfold logout, authAPI_logout, api.
    rewrite request_interceptor_no_token; [done|].
    apply (removeItem_tokens w0). }
  rewrite Hw2. unfold refreshUser_rejected.
  destruct from_initAuth.
  - split; [done|]. split.
    { split; [|done].
      apply (removeItem_tokens
               (console_error "Failed to refresh user:" e
                  (logout (console_error "Failed to refresh user:" e
                             (resume n w1))))). }
    split; [|done]. intros _.
    split; [|by simpl; rewrite <- app_assoc].
    change (wire (setIsLoading false ?x)) with (wire x).
    rewrite Hnotify.
    change (wire (console_error ?l ?e ?x)) with (wire x).
    rewrite Hnotify. by rewrite <- app_assoc.
  - split; [done|]. split.
    { split; [|done].
      apply (removeItem_tokens
               (console_error "Failed to refresh user:" e (resume n w1))). }
    split; [done|]. intros _.
    split; [|split; [done | apply lookup_insert_eq]].
    change (wire (settle ?a ?b ?x)) with (wire x).
    by rewrite Hnotify.
Qed.

Lemma failed_profile_fetch_logs_out_witness :
  axios_settle (Replied 500 EmptyData)
  = inr (AxiosError (Some (500, EmptyData))) ∧
  error_status (AxiosError (Some (500, EmptyData))) ≠ Some 401 ∧
  wire (deliver 0 (Replied 500 EmptyData) (refreshUser true signed_in)) =
    (wire (refreshUser true signed_in) ++
     [mkRequest ApiInstance (post "auth/logout/" NoBody);
      mkRequest ApiInstance (post "auth/logout/" NoBody)])%list.
Proof.
  assert (H : error_status (AxiosError (Some (500, EmptyData))) ≠ Some 401)
    by discriminate.
  split; [reflexivity|]. split; [exact H|].
  destruct (failed_profile_fetch_logs_out signed_in true (Replied 500 EmptyData)
              (AxiosError (Some (500, EmptyData))) eq_refl H)
    as (_ & _ & Htwice & _).
  apply (Htwice eq_refl).
Defined.

(** * The onboarding wizard *)

(** ** Selecting services and countries *)

Lemma toggled_elem x y l :
  y ∈ toggled x l ↔ (y = x ∧ x ∉ l) ∨ (y ≠ x ∧ y ∈ l).
Proof.
  unfold toggled. case_bool_decide as Hx.
  - rewrite list_elem_of_filter. split.
    + intros [Hne Hy]. by right.
    + intros [[-> Hn] | [Hne Hy]]; done.
  - rewrite elem_of_app, list_elem_of_singleton. split.
    + intros [Hy | ->]; [|by left].
      right. split; [|done]. intros ->. done.
    + intros [[-> _] | [_ Hy]]; [by right | by left].
Qed.

Lemma toggled_NoDup x l : NoDup l → NoDup (toggled x l).
Proof.
  intros Hnd. unfold toggled. case_bool_decide as Hx.
  - by apply NoDup_filter.
  - apply NoDup_app. split; [done|]. split; [|apply NoDup_singleton].
    intros y Hy ->%list_elem_of_singleton. done.
Qed.

Lemma filter_absent (x : string) (l : list string) :
  x ∉ l → filter (λ y, y ≠ x) l = l.
Proof.
  induction l as [|a l IH]; intros Hx; [done|].
  apply not_elem_of_cons in Hx as [Hne Hx].
  rewrite filter_cons_True by done. by rewrite IH.
Qed.

(** X17.  A click on a service tile flips exactly that service: it is
    selected afterwards if and only if it was not before, every other
    service keeps its state, and a selection without duplicates stays
    without duplicates. *)
Theorem toggleService_flips_one (serviceId : string) (z : Wizard) :
  let z' := toggleService serviceId z in
  (serviceId ∈ selectedServices z' ↔ serviceId ∉ selectedServices z) ∧
  (∀ other, other ≠ serviceId →
     (other ∈ selectedServices z' ↔ other ∈ selectedServices z)) ∧
  (NoDup (selectedServices z) → NoDup (selectedServices z')) ∧
  currentStep z' = currentStep z ∧
  selectedCountries z' = selectedCountries z ∧ timeline z' = timeline z.
Proof.
  simpl. split; [|split; [|split; [apply toggled_NoDup | done]]].
  - rewrite toggled_elem. split.
    + intros [[_ H] | [H _]]; done.
    + intros H. by left.
  - intros other Hne. rewrite toggled_elem. split.
    + intros [[H _] | [_ H]]; done.
    + intros H. by right.
Qed.

(** X18.  Clicking the same tile twice.  For a service that was not
    selected the two clicks cancel.  For one that was selected they do
    not: the service moves to the end of the selection.  Since
    [project_type] is the first selected service, taking the first
    service off and on again changes the [project_type] to the one that
    was second. *)
Theorem toggleService_twice (serviceId : string) (z : Wizard) :
  let z'' := toggleService serviceId (toggleService serviceId z) in
  (serviceId ∉ selectedServices z → z'' = z) ∧
  (serviceId ∈ selectedServices z →
     selectedServices z'' =
       (filter (λ y, y ≠ serviceId) (selectedServices z) ++ [serviceId])%list) ∧
  (∀ second rest,
     selectedServices z = serviceId :: second :: rest →
     second ≠ serviceId → truthy (Some second) = true →
     projectData_project_type z'' = second).
Proof.
  assert (Hin : serviceId ∈ selectedServices z →
     toggled serviceId (toggled serviceId (selectedServices z)) =
       (filter (λ y, y ≠ serviceId) (selectedServices z) ++ [serviceId])%list).
  { intros Hx. unfold toggled at 2. rewrite bool_decide_eq_true_2 by done.
    unfold toggled. rewrite bool_decide_eq_false_2; [done|].
    rewrite list_elem_of_filter. intros [H _]. done. }
  simpl. split; [|split; [exact Hin|]].
  - intros Hx. destruct z as [st ss cs tl]. simpl in *.
    unfold toggleService. simpl. f_equal.
    unfold toggled at 2. rewrite bool_decide_eq_false_2 by done.
    unfold toggled. rewrite bool_decide_eq_true_2
      by (apply elem_of_app; right; by apply list_elem_of_singleton).
    rewrite filter_app, filter_absent by done.
    rewrite filter_cons_False by (intros H; by apply H). by rewrite app_nil_r.
  - intros second rest Hsel Hne Ht.
    unfold projectData_project_type. simpl. rewrite Hin.
    + rewrite Hsel. rewrite filter_cons_False by (intros H; by apply H).
      rewrite filter_cons_True by done. simpl.
      unfold or_else. simpl. by destruct second.
    + rewrite Hsel. apply list_elem_of_here.
Qed.

Lemma toggleService_twice_witness :
  let z := mkWizard 1 ["construction"; "renovation"] [] "" in
  selectedServices z = "construction" :: "renovation" :: [] ∧
  "renovation" ≠ "construction" ∧ truthy (Some "renovation") = true ∧
  projectData_project_type z = "construction" ∧
  projectData_project_type
    (toggleService "construction" (toggleService "construction" z))
  = "renovation".
Proof.
  intros z.
  assert (Hne : "renovation" ≠ "construction") by discriminate.
  split; [reflexivity|]. split; [exact Hne|]. do 2 (split; [reflexivity|]).
  destruct (toggleService_twice "construction" z) as (_ & _ & H).
  apply (H "renovation" [] eq_refl Hne eq_refl).
Defined.

(** ** Steps *)

(** X19.  [handleNext] and [handleBack] keep the step between 1 and
    3: at step 3 [handleNext] does nothing, at step 1 [handleBack] does
    nothing, and in between each undoes the other. *)
Theorem steps_stay_in_range (z : Wizard) :
  1 ≤ currentStep z ≤ 3 →
  1 ≤ currentStep (handleNext z) ≤ 3 ∧
  1 ≤ currentStep (handleBack z) ≤ 3 ∧
  (currentStep z = 3 → handleNext z = z) ∧
  (currentStep z = 1 → handleBack z = z) ∧
  (currentStep z < 3 → handleBack (handleNext z) = z) ∧
  (1 < currentStep z → handleNext (handleBack z) = z).
Proof.
  intros Hz. destruct z as [st ss cs tl]. simpl in Hz.
  unfold handleNext, handleBack. simpl.
  repeat split.
  - destruct (Z.ltb_spec st 3); simpl; lia.
  - destruct (Z.ltb_spec st 3); simpl; lia.
  - destruct (Z.ltb_spec 1 st); simpl; lia.
  - destruct (Z.ltb_spec 1 st); simpl; lia.
  - intros ->. reflexivity.
  - intros ->. reflexivity.
  - intros H. destruct (Z.ltb_spec st 3); [|lia]. simpl.
    destruct (Z.ltb_spec 1 (st + 1)); [|lia]. f_equal. lia.
  - intros H. destruct (Z.ltb_spec 1 st); [|lia]. simpl.
    destruct (Z.ltb_spec (st - 1) 3); [|lia]. f_equal. lia.
Qed.

Lemma steps_stay_in_range_witness :
  1 ≤ currentStep new_wizard ≤ 3 ∧
  handleBack (handleNext new_wizard) = new_wizard.
Proof.
  assert (H : 1 ≤ currentStep new_wizard ≤ 3) by (simpl; lia).
  split; [exact H|].
  destruct (steps_stay_in_range new_wizard H) as (_ & _ & _ & _ & Hround & _).
  apply Hround. simpl. lia.
Defined.

Lemma toggleService_flips_one_witness :
  "renovation" ≠ "construction" ∧
  NoDup (selectedServices (mkWizard 1 ["construction"] [] "")) ∧
  NoDup (selectedServices
           (toggleService "renovation" (mkWizard 1 ["construction"] [] ""))).
Proof.
  assert (H : NoDup (selectedServices (mkWizard 1 ["construction"] [] "")))
    by apply NoDup_singleton.
  split; [discriminate|]. split; [exact H|].
  destruct (toggleService_flips_one "renovation"
              (mkWizard 1 ["construction"] [] "")) as (_ & _ & Hnd & _).
  apply (Hnd H).
Defined.

(** ** What can be reached by clicking *)

Lemma toggled_Forall (P : string → Prop) x l :
  P x → Forall P l → Forall P (toggled x l).
Proof.
  intros Hx Hl. unfold toggled. case_bool_decide.
  - apply Forall_forall. intros y [_ Hy]%list_elem_of_filter.
    by eapply Forall_forall in Hl.
  - apply Forall_app. split; [done|]. by constructor.
Qed.

Lemma length_pos_nonempty {A} (l : list A) : (0 <? length l)%nat = true → l ≠ [].
Proof. by destruct l. Qed.

Lemma click_ok c z : wizard_ok z → wizard_ok (click c z).
Proof.
  intros (Hstep & Hs & Hsn & Hc & Hcn & Ht & H2 & H3).
  destruct c as [i|i|i| |]; cbn [click].
  - destruct (Z.eqb_spec (currentStep z) 1) as [E|E]; [|done].
    destruct (services !! i) as [service|] eqn:Hi; [|done].
    unfold wizard_ok, toggleService, toggleCountry.
    cbn [currentStep selectedServices selectedCountries timeline]. rewrite E.
    split; [by left|]. split.
    { apply toggled_Forall; [|done].
      apply list_elem_of_fmap_2. by eapply list_elem_of_lookup_2. }
    split; [by apply toggled_NoDup|].
    split; [done|]. split; [done|]. split; [done|]. split; lia.
  - destruct (Z.eqb_spec (currentStep z) 2) as [E|E]; [|done].
    destruct (countries !! i) as [country|] eqn:Hi; [|done].
    unfold wizard_ok, toggleService, toggleCountry.
    cbn [currentStep selectedServices selectedCountries timeline]. rewrite E.
    split; [by right; left|]. split; [done|]. split; [done|]. split.
    { apply toggled_Forall; [|done].
      apply list_elem_of_fmap_2. by eapply list_elem_of_lookup_2. }
    split; [by apply toggled_NoDup|]. split; [done|].
    split; [intros _; apply H2; lia | lia].
  - destruct (Z.eqb_spec (currentStep z) 3) as [E|E]; [|done].
    destruct (timelineOptions !! i) as [value|] eqn:Hi; [|done].
    unfold wizard_ok, setTimeline.
    cbn [currentStep selectedServices selectedCountries timeline].
    split; [done|]. split; [done|]. split; [done|]. split; [done|].
    split; [done|]. split; [|done].
    right. by eapply list_elem_of_lookup_2.
  - destruct (Z.eqb_spec (currentStep z) 1) as [E|E]; [done|].
    unfold handleBack. destruct (Z.ltb_spec 1 (currentStep z)); [|done].
    unfold wizard_ok.
    cbn [currentStep selectedServices selectedCountries timeline].
    split; [lia|]. split; [done|]. split; [done|]. split; [done|].
    split; [done|]. split; [done|].
    split; [intros _; apply H2; lia | lia].
  - destruct (Z.ltb_spec (currentStep z) 3) as [E|E]; simpl; [|done].
    destruct (canProceed z) eqn:Hcan; [|done].
    unfold handleNext. destruct (Z.ltb_spec (currentStep z) 3); [|lia].
    unfold wizard_ok.
    cbn [currentStep selectedServices selectedCountries timeline].
    split; [lia|]. split; [done|]. split; [done|]. split; [done|].
    split; [done|]. split; [done|].
    unfold canProceed in Hcan.
    destruct (Z.eqb_spec (currentStep z) 1) as [E1|E1].
    + split; [intros _; by apply length_pos_nonempty | lia].
    + destruct (Z.eqb_spec (currentStep z) 2) as [E2|E2]; [|lia].
      split; [intros _; apply H2; lia|].
      intros _. by apply length_pos_nonempty.
Qed.

Lemma clicks_ok cs : ∀ z, wizard_ok z → wizard_ok (clicks cs z).
Proof.
  induction cs as [|c cs IH]; intros z Hz; [done|].
  apply IH. by apply click_ok.
Qed.

Lemma new_wizard_ok : wizard_ok new_wizard.
Proof.
  unfold wizard_ok. simpl.
  split; [by left|]. split; [constructor|]. split; [constructor|].
  split; [constructor|]. split; [constructor|]. split; [by left|].
  split; [lia | lia].
Qed.

Lemma service_ids_found :
  Forall (λ s, truthy (Some s) = true ∧
               ∃ sv, find_service s = Some sv ∧ truthy (Some (service_name sv)) = true)
         (map service_id services).
Proof. repeat constructor; eexists; split; reflexivity. Qed.

Lemma country_names_truthy :
  Forall (λ c, truthy (Some c) = true) (map fst countries).
Proof. repeat constructor. Qed.

Lemma concat_truthy sep a l :
  truthy (Some a) = true → truthy (Some (String.concat sep (a :: l))) = true.
Proof.
  destruct a as [|c a]; [done|]. intros _. by destruct l.
Qed.

(** X20.  Whatever is clicked on the wizard, starting from a page just
    mounted, the button Create Project is enabled only on step 3 with at
    least one service, at least one country and a timeline selected, each
    taken from the tables and none twice.  So, when [handleComplete] can
    be started, [project_type] is the first selected service, [country]
    the first selected country, [city] that country followed by " City",
    and [title] the names of the selected services joined by commas: the
    fallbacks 'other', 'Nigeria', 'Lagos' and 'New Project' are not
    taken. *)
Theorem create_needs_a_full_selection (cs : list Click) :
  let z := clicks cs new_wizard in
  create_enabled z = true →
  currentStep z = 3 ∧
  NoDup (selectedServices z) ∧ NoDup (selectedCountries z) ∧
  timeline z ∈ timelineOptions ∧
  (∃ s rest,
     selectedServices z = s :: rest ∧ s ∈ map service_id services ∧
     projectData_project_type z = s) ∧
  (∃ c rest,
     selectedCountries z = c :: rest ∧ c ∈ map fst countries ∧
     projectData_country z = c ∧ projectData_city z = c ++ " City") ∧
  projectData_title z =
    join ", " (map (λ id, service_name <$> find_service id)
                   (selectedServices z)).
Proof.
  intros z Hen.
  destruct (clicks_ok cs new_wizard new_wizard_ok)
    as (Hstep & Hs & Hsn & Hc & Hcn & Ht & H2 & H3).
  fold z in Hstep, Hs, Hsn, Hc, Hcn, Ht, H2, H3.
  unfold create_enabled in Hen. apply andb_true_iff in Hen as [Hge Hcan].
  assert (E3 : currentStep z = 3).
  { destruct (Z.ltb_spec (currentStep z) 3); [done|lia]. }
  split; [exact E3|]. split; [exact Hsn|]. split; [exact Hcn|].
  unfold canProceed in Hcan. rewrite E3 in Hcan. simpl in Hcan.
  split.
  { destruct Ht as [Ht|Ht]; [|done]. rewrite Ht in Hcan. done. }
  destruct (selectedServices z) as [|s rest] eqn:Hsel; [by destruct H2; [lia|]|].
  destruct (selectedCountries z) as [|c crest] eqn:Hcsel; [by destruct H3|].
  apply Forall_cons in Hs as [Hs _]. apply Forall_cons in Hc as [Hc _].
  pose proof service_ids_found as Hfound.
  rewrite Forall_forall in Hfound.
  destruct (Hfound s Hs) as (Hst & sv & Hsv & Hname).
  pose proof country_names_truthy as Hnames.
  rewrite Forall_forall in Hnames. specialize (Hnames c Hc).
  split; [|split].
  - exists s, rest. split; [done|]. split; [done|].
    unfold projectData_project_type, or_else. rewrite Hsel. simpl.
    by destruct s.
  - exists c, crest. split; [done|]. split; [done|].
    unfold projectData_country, projectData_city, or_else. rewrite Hcsel.
    simpl. by destruct c.
  - unfold projectData_title, or_else. rewrite Hsel.
    cbn [map]. rewrite Hsv. unfold join. cbn [map fmap option_fmap option_map default].
    by rewrite concat_truthy.
Qed.

Lemma create_needs_a_full_selection_witness :
  let cs := [ServiceTile 1; ServiceTile 2; ContinueButton; CountryTile 1;
             ContinueButton; TimelineTile 1] in
  create_enabled (clicks cs new_wizard) = true ∧
  projectData_title (clicks cs new_wizard)
  = "Construction Monitoring, Renovation Oversight".
Proof.
  intros cs. split; [reflexivity|].
  destruct (create_needs_a_full_selection cs eq_refl)
    as (_ & _ & _ & _ & _ & _ & H).
  rewrite H. reflexivity.
Defined.

(** * One refresh for any call *)

Lemma refresh_calls_app l1 l2 :
  refresh_calls (l1 ++ l2) = (refresh_calls l1 + refresh_calls l2)%nat.
Proof. apply count_app. Qed.

Lemma logout_pending w key p :
  pending (logout w) !! key = Some p →
  pending w !! key = Some p ∨
  (caller p = LogoutCaller ∧ stage p = AwaitingReply).
Proof.
  unfold logout, authAPI_logout, api. simpl.
  rewrite lookup_insert. case_decide as E.
  - intros [= <-]. by right.
  - intros H. by left.
Qed.

Lemma logout_wire_refresh_calls base l w :
  wire w = (base ++ l)%list →
  ∃ l', wire (logout w) = (base ++ l')%list ∧
        refresh_calls l' = refresh_calls l.
Proof.
  intros Hw. exists (l ++ [mkRequest ApiInstance
    (request_interceptor (post "auth/logout/" NoBody)
       (setUser None
          (removeItem "refresh_token" (removeItem "access_token" w))))])%list.
  split.
  - unfold logout, authAPI_logout, api. simpl. rewrite Hw.
    by rewrite <- app_assoc.
  - rewrite refresh_calls_app. unfold refresh_calls at 2. simpl. lia.
Qed.

(** The caller runs on from a state in which nothing is suspended. *)
Lemma continue_over base k o x w l :
  wire w = (base ++ l)%list → pending w = ∅ → (refresh_calls l ≤ 1)%nat →
  call_cycle base k (continue k o x w).
Proof.
  intros Hw Hp Hl.
  assert (Hflat : ∀ w', wire w' = wire w → pending w' = ∅ →
            call_cycle base k w').
  { intros w' Hw' Hp'. apply call_over with (l := l);
      [by rewrite Hw' | done | by rewrite Hp']. }
  destruct k as [| |h|i|], x as [d|e]; simpl;
    try (by apply Hflat); try (destruct h; by apply Hflat).
  - destruct i; by apply Hflat.
  - unfold refreshUser_rejected.
    destruct (logout_wire_refresh_calls base l
                (console_error "Failed to refresh user:" e w) Hw)
      as (l1 & Hw1 & Hl1).
    destruct i.
    + destruct (logout_wire_refresh_calls base l1
                  (console_error "Failed to refresh user:" e
                     (logout (console_error "Failed to refresh user:" e w)))
                  Hw1) as (l2 & Hw2 & Hl2).
      apply call_over with (l := l2); [exact Hw2 | lia |].
      intros key p Hkey.
      change (pending (setIsLoading false ?a)) with (pending a) in Hkey.
      apply logout_pending in Hkey as [Hkey|[Hc Hs]].
      * change (pending (console_error ?a ?b ?c)) with (pending c) in Hkey.
        apply logout_pending in Hkey as [Hkey|[Hc Hs]].
        -- simpl in Hkey. by rewrite Hp in Hkey.
        -- split; [done|]. split; [done|].
           unfold getItem. simpl. by rewrite lookup_delete_eq.
      * split; [done|]. split; [done|].
        unfold getItem. simpl. by rewrite lookup_delete_eq.
    + apply call_over with (l := l1); [exact Hw1 | lia |].
      intros key p Hkey.
      change (pending (settle ?a ?b ?c)) with (pending c) in Hkey.
      apply logout_pending in Hkey as [Hkey|[Hc Hs]].
      * simpl in Hkey. by rewrite Hp in Hkey.
      * split; [done|]. split; [done|].
        unfold getItem. simpl. by rewrite lookup_delete_eq.
Qed.

Lemma refresh_failed_over base k e c st o w key l :
  wire w = (base ++ l)%list → pending w = {[key := mkPending c st k o]} →
  (refresh_calls l ≤ 1)%nat →
  call_cycle base k
    (refresh_failed e (mkPending c st k o) (resume key w)).
Proof.
  intros Hw Hp Hl. unfold refresh_failed.
  apply continue_over with (l := l); [done| |done].
  simpl. rewrite Hp. apply delete_singleton_eq.
Qed.

Lemma call_cycle_start w cfg k :
  _retry cfg = false → pending w = ∅ →
  call_cycle (wire w) k (api cfg k None w).
Proof.
  intros Hr Hp.
  eapply call_sent with (l := [_]); simpl; try reflexivity.
  - rewrite Hp. reflexivity.
  - by rewrite request_interceptor_retry.
Qed.

Lemma call_cycle_step base k n r w :
  call_cycle base k w → call_cycle base k (deliver n r w).
Proof.
  intros [l key c o Hw Hp Hr Hrc | l key c o Hw Hp Hr Hrc
         | l key c o Hw Hp Hr Hrc | l Hw Hrc Hp].
  - destruct (decide (n = key)) as [->|Hne].
    2:{ rewrite deliver_not_pending; [by eapply call_sent|].
        rewrite Hp. by apply lookup_singleton_ne. }
    erewrite deliver_pending by (rewrite Hp; apply lookup_singleton_eq).
    simpl. destruct (axios_settle r) as [d|e].
    + apply continue_over with (l := l); [done| |lia].
      simpl. rewrite Hp. apply delete_singleton_eq.
    + unfold response_rejected; simpl. rewrite Hr; simpl.
      destruct (bool_decide _); simpl.
      * destruct (truthy _); simpl.
        -- eapply call_refreshing with (l := (l ++ [_])%list); simpl.
           ++ rewrite Hw. by rewrite <- app_assoc.
           ++ rewrite Hp, delete_singleton_eq. reflexivity.
           ++ reflexivity.
           ++ rewrite refresh_calls_app, Hrc. reflexivity.
        -- apply refresh_failed_over with (l := l); [done|done|lia].
      * apply continue_over with (l := l); [done| |lia].
        simpl. rewrite Hp. apply delete_singleton_eq.
  - destruct (decide (n = key)) as [->|Hne].
    2:{ rewrite deliver_not_pending; [by eapply call_refreshing|].
        rewrite Hp. by apply lookup_singleton_ne. }
    erewrite deliver_pending by (rewrite Hp; apply lookup_singleton_eq).
    simpl. destruct (axios_settle r) as [d|e].
    + unfold refresh_fulfilled, api; simpl.
      eapply call_resent with (l := (l ++ [_])%list); simpl.
      * rewrite Hw. by rewrite <- app_assoc.
      * rewrite Hp, delete_singleton_eq. reflexivity.
      * rewrite request_interceptor_after_refresh. done.
      * rewrite refresh_calls_app, Hrc. reflexivity.
    + apply refresh_failed_over with (l := l); [done|done|lia].
  - destruct (decide (n = key)) as [->|Hne].
    2:{ rewrite deliver_not_pending; [by eapply call_resent|].
        rewrite Hp. by apply lookup_singleton_ne. }
    rewrite (deliver_marked key r w (mkPending c AwaitingReply k o));
      [ | rewrite Hp; apply lookup_singleton_eq | done | done].
    apply continue_over with (l := l); [done| |lia].
    simpl. rewrite Hp. apply delete_singleton_eq.
  - destruct (pending w !! n) as [p|] eqn:Hn.
    2:{ rewrite deliver_not_pending by done. by eapply call_over. }
    destruct (Hp n p Hn) as (Hc & Hs & Ht).
    rewrite (deliver_pending _ _ _ _ Hn), Hs.
    assert (Hrest : ∀ w', wire w' = wire w →
              pending w' = delete n (pending w) →
              truthy (getItem "refresh_token" w') = false →
              call_cycle base k w').
    { intros w' Hw' Hp' Ht'. apply call_over with (l := l);
        [by rewrite Hw' | done |].
      intros key q Hq. rewrite Hp' in Hq.
      apply lookup_delete_Some in Hq as [_ Hq].
      destruct (Hp key q Hq) as (? & ? & _). done. }
    destruct (axios_settle r) as [d|e].
    + rewrite Hc. by apply Hrest.
    + unfold response_rejected.
      replace (getItem "refresh_token" (resume n w))
        with (getItem "refresh_token" w) by reflexivity.
      rewrite Ht. simpl.
      destruct (bool_decide _ && negb _).
      * unfold refresh_failed. rewrite Hc. simpl.
        apply Hrest; [done | done |].
        unfold getItem. simpl. by rewrite lookup_delete_eq.
      * rewrite Hc. by apply Hrest.
Qed.

Lemma call_cycle_run base k events : ∀ w,
  call_cycle base k w → call_cycle base k (run events w).
Proof.
  induction events as [|[n r] events IH]; intros w H; [done|].
  rewrite run_cons. apply IH. by apply call_cycle_step.
Qed.

(** X21.  The bound of one refresh holds for every caller, not only
    for resource calls.  A call through [api] that starts with nothing
    else in flight (a login, a registration, a profile fetch, a logout
    notification, a resource call) puts at most one refresh request on
    the wire, whatever replies arrive and in whatever order, the logout
    notifications that a failed profile fetch posts included: by then
    the refresh token has been removed, so a 401 for a notification
    cannot start a refresh. *)
Theorem any_call_refreshes_at_most_once
    (w : Browser) (cfg : Config) (k : Caller) (events : list (nat * Reply)) :
  _retry cfg = false → pending w = ∅ →
  (refresh_calls
     (drop (length (wire w)) (wire (run events (api cfg k None w)))) ≤ 1)%nat.
Proof.
  intros Hr Hp.
  destruct (call_cycle_run (wire w) k events (api cfg k None w)
              (call_cycle_start w cfg k Hr Hp))
    as [l key c o Hw _ _ Hrc | l key c o Hw _ _ Hrc
       | l key c o Hw _ _ Hrc | l Hw Hrc _];
    rewrite Hw, drop_app_length; lia.
Qed.

Lemma any_call_refreshes_at_most_once_witness :
  _retry (get "auth/user/profile/") = false ∧ pending signed_in = ∅ ∧
  (refresh_calls
     (drop 0
        (wire (run [(0, Replied 401 expired); (1, Replied 401 expired);
                    (2, Replied 401 expired); (3, Replied 401 expired)]%nat
                   (api (get "auth/user/profile/") (RefreshUserCaller true)
                        None signed_in)))) ≤ 1)%nat.
Proof.
  do 2 (split; [reflexivity|]).
  apply (any_call_refreshes_at_most_once signed_in (get "auth/user/profile/")
           (RefreshUserCaller true)
           [(0, Replied 401 expired); (1, Replied 401 expired);
            (2, Replied 401 expired); (3, Replied 401 expired)]%nat
           eq_refl eq_refl).
Defined.

(** * Failure of the refresh, for any caller *)

Lemma logout_wire w : wire (logout w) = (wire w ++ [logout_notification])%list.
Proof.
  unfold logout, authAPI_logout, api.
  rewrite request_interceptor_no_token; [done|].
  apply (removeItem_tokens w).
Qed.

(** A rejected caller sends nothing but the logout notifications of the
    profile fetch. *)
Lemma continue_rejected_wire k o e w :
  ∃ m, (m ≤ 2)%nat ∧
       wire (continue k o (inr e) w) =
         (wire w ++ replicate m logout_notification)%list.
Proof.
  destruct k as [| |h|i|].
  - exists 0%nat. split; [lia|]. simpl. by rewrite app_nil_r.
  - exists 0%nat. split; [lia|]. simpl. by rewrite app_nil_r.
  - exists 0%nat. split; [lia|]. destruct h; simpl; by rewrite app_nil_r.
  - destruct i.
    + exists 2%nat. split; [lia|].
      change (wire (continue (RefreshUserCaller true) o (inr e) w))
        with (wire (logout (console_error "Failed to refresh user:" e
                      (logout (console_error "Failed to refresh user:" e w))))).
      rewrite logout_wire.
      change (wire (console_error ?l ?e ?x)) with (wire x).
      rewrite logout_wire.
      change (wire (console_error ?l ?e ?x)) with (wire x).
      by rewrite <- app_assoc.
    + exists 1%nat. split; [lia|].
      change (wire (continue (RefreshUserCaller false) o (inr e) w))
        with (wire (logout (console_error "Failed to refresh user:" e w))).
      by rewrite logout_wire.
  - exists 0%nat. split; [lia|]. simpl. by rewrite app_nil_r.
Qed.

(** C3, as the code has it.  The refresh fails when the refresh call is
    rejected or when no refresh token is stored as the 401 arrives.  Then,
    whoever made the original request: the handler removes both stored
    tokens, sets the location to /login and rejects the promise of the
    original request with the refresh error itself; the caller runs on
    from there.  No token is stored afterwards, and a page loaded from
    that storage starts without a user and sends nothing.  The failure is
    final: no refresh request follows and the original request is not
    sent again; the only requests that can follow are the logout
    notifications that the catch clauses of a profile fetch post.  The
    error has no kind.  A resource caller receives the rejection as it
    is.  [login] turns it into its usual failed result, and when the
    refresh token was missing that result is the one it gives for
    rejected credentials. *)
Theorem failed_refresh_removes_tokens_and_rejects
    (w : Browser) (k : nat) (p : Pending) (r : Reply) (e : JsError) :
  pending w !! k = Some p →
  (stage p = AwaitingRefresh ∧ axios_settle r = inr e) ∨
  (stage p = AwaitingReply ∧ _retry (originalRequest p) = false ∧
   truthy (getItem "refresh_token" w) = false ∧
   (∃ d, r = Replied 401 d) ∧ e = PlainError "No refresh token") →
  let handled :=
    set_href "/login"
      (removeItem "refresh_token" (removeItem "access_token" (resume k w))) in
  let w' := deliver k r w in
  w' = continue (caller p) (origin p) (inr e) handled ∧
  no_tokens w' ∧
  (∃ m, (m ≤ 2)%nat ∧
        wire w' = (wire w ++ replicate m logout_notification)%list) ∧
  refresh_calls (wire w') = refresh_calls (wire w) ∧
  (∀ location,
     let reloaded := bootstrap (localStorage w') location in
     user reloaded = None ∧ isLoading reloaded = false ∧ wire reloaded = []) ∧
  (caller p = ResourceCaller →
     settled w' !! origin p = Some (Rejected e) ∧ href w' = "/login" ∧
     wire w' = wire w ∧ pending w' = delete k (pending w)) ∧
  (caller p = LoginCaller →
     (∃ message,
        settled w' !! origin p = Some (AuthResult false (Some message))) ∧
     (e = PlainError "No refresh token" →
      settled w' !! origin p = Some login_failed_result)).
Proof.
  intros Hp Hcase handled w'.
  assert (Hw' : w' = continue (caller p) (origin p) (inr e) handled).
  { destruct Hcase as [[Hs He] | (Hs & Hr & Ht & [d ->] & ->)].
    - by apply deliver_refresh_rejected.
    - by apply deliver_401_no_refresh_token. }
  assert (Hno : no_tokens w').
  { rewrite Hw'. apply continue_rejected_no_tokens.
    apply (removeItem_tokens (resume k w)). }
  split; [exact Hw'|]. split; [exact Hno|]. split; [|split; [|split; [|split]]].
  - rewrite Hw'. apply (continue_rejected_wire (caller p) (origin p) e handled).
  - rewrite Hw'. apply (continue_rejected_refresh_calls _ _ _ handled).
  - intros location. apply bootstrap_without_token.
    destruct Hno as [Ha _]. unfold getItem in Ha. by rewrite Ha.
  - intros Hc. rewrite Hw', Hc. simpl.
    split; [apply lookup_insert_eq | done].
  - intros Hc. rewrite Hw', Hc. split.
    + destruct (login_rejected_spec e (origin p) handled)
        as (_ & _ & _ & _ & _ & Hm). exact Hm.
    + intros ->. apply lookup_insert_eq.
Qed.

Lemma failed_refresh_removes_tokens_and_rejects_witness :
  let w := login "amina@example.com" "secret1234" access_only in
  let p := mkPending
             (mkConfig POST "auth/token/"
                       (LoginBody "amina@example.com" "secret1234")
                       (Some "Bearer A1") false)
             AwaitingReply LoginCaller 0 in
  let e := PlainError "No refresh token" in
  let w' := deliver 0 (Replied 401 token_not_valid) w in
  pending w !! 0%nat = Some p ∧
  (stage p = AwaitingReply ∧ _retry (originalRequest p) = false ∧
   truthy (getItem "refresh_token" w) = false ∧
   (∃ d, Replied 401 token_not_valid = Replied 401 d) ∧
   e = PlainError "No refresh token") ∧
  caller p = LoginCaller ∧
  no_tokens w' ∧ wire w' = wire w ∧
  settled w' !! 0%nat = Some login_failed_result.
Proof.
  intros w p e w'.
  assert (Hp : pending w !! 0%nat = Some p) by reflexivity.
  assert (Hcase : stage p = AwaitingReply ∧ _retry (originalRequest p) = false ∧
            truthy (getItem "refresh_token" w) = false ∧
            (∃ d, Replied 401 token_not_valid = Replied 401 d) ∧
            e = PlainError "No refresh token").
  { do 3 (split; [reflexivity|]). split; [by eexists | reflexivity]. }
  split; [exact Hp|]. split; [exact Hcase|]. split; [reflexivity|].
  destruct (failed_refresh_removes_tokens_and_rejects w 0 p
              (Replied 401 token_not_valid) e Hp (or_intror Hcase))
    as (Hw' & Hno & _ & _ & _ & _ & Hlogin).
  split; [exact Hno|]. split; [unfold w'; rewrite Hw'; reflexivity|].
  destruct (Hlogin eq_refl) as [_ Hfixed]. apply (Hfixed eq_refl).
Defined.

(** C3, as stated, fails on what the caller is told.  The page holds a
    stale access token and no refresh token; the login request goes out
    with that token and comes back 401.  The refresh fails for want of a
    refresh token, and [login] reports exactly what it reports for
    rejected credentials, where the claim has a session expiry and never
    invalid credentials. *)
Lemma missing_refresh_token_reads_as_rejected_credentials :
  ¬ (settled (deliver 0 (Replied 401 token_not_valid)
                      (login "amina@example.com" "secret1234" access_only))
       !! 0%nat
     ≠ Some login_failed_result).
Proof. intros H. apply H. reflexivity. Qed.
